(** * tor-va-tests: the dual-path block tester

    A shallow embedding of [block-tester.go] (fresh SOCKS5 identity per
    name, configurable worker count) and of its earlier variant (one
    proxy dialer built in [main] and shared by every probe, five
    workers), followed by the properties of the prober, of the dialer
    factory, of the per-name coordinator and of the dispatcher.

    External capabilities (the DNS exchange, the HTTP client, the clock,
    the random device) are oracles: a probe receives an [Env] that says
    what the network answers.  Goroutines, wait groups and channels are
    modelled by a small-step machine driven by an explicit schedule. *)

From Stdlib Require Import ZArith Lia Ascii String DecimalString Permutation.
From stdpp Require Import base list strings.

Local Open Scope string_scope.
Local Open Scope list_scope.

(** ** Bytes, hexadecimal and dotted-decimal printing *)

Abbreviation byte := Byte.byte.

(** One digit of [fmt.Sprintf("%X", b)]: upper-case hexadecimal. *)
Definition hexDigit (n : nat) : ascii :=
  match n with
  | 0 => "0" | 1 => "1" | 2 => "2" | 3 => "3" | 4 => "4" | 5 => "5"
  | 6 => "6" | 7 => "7" | 8 => "8" | 9 => "9" | 10 => "A" | 11 => "B"
  | 12 => "C" | 13 => "D" | 14 => "E" | _ => "F"
  end%char.

(** [fmt.Sprintf("%X", b)] on a byte slice: two digits per byte, no
    separator. *)
Fixpoint sprintfX (b : list byte) : string :=
  match b with
  | [] => ""
  | x :: rest =>
      String (hexDigit (Byte.to_nat x / 16))
        (String (hexDigit (Byte.to_nat x mod 16)) (sprintfX rest))
  end.

Definition decimal (n : nat) : string := NilZero.string_of_uint (Nat.to_uint n).

(** The address of a [dns.A] record is a [net.IP]: the four octets of
    the A rdata, or nil when the rdata is absent. *)
Inductive netIP :=
| IPnil
| IPv4 (a b c d : byte).

(** [net.IP.String]: the text [<nil>] for a nil address, dotted decimal
    for an IPv4 one. *)
Definition IPString (ip : netIP) : string :=
  match ip with
  | IPnil => "<nil>"
  | IPv4 a b c d =>
      decimal (Byte.to_nat a) +:+ "." +:+ decimal (Byte.to_nat b) +:+ "."
        +:+ decimal (Byte.to_nat c) +:+ "." +:+ decimal (Byte.to_nat d)
  end.

(** ** DNS messages and HTTP requests, as far as the prober builds them *)

Definition TypeA : Z := 1.

(** Resource records of an answer section; the type assertion of an
    answer to a [dns.A] pointer succeeds on [RR_A] only. *)
Inductive RR :=
| RR_A (a : netIP)
| RR_other (rrtype : Z) (rdata : string).

Record Msg := mkMsg {
  Question : option (string * Z);
  Edns0 : option (Z * bool)
}.

Definition SetEdns0 (udpsize : Z) (do : bool) (m : Msg) : Msg :=
  {| Question := Question m; Edns0 := Some (udpsize, do) |}.

Definition SetQuestion (z : string) (t : Z) (m : Msg) : Msg :=
  {| Question := Some (z, t); Edns0 := Edns0 m |}.

Fixpoint endsWithDot (s : string) : bool :=
  match s with
  | "" => false
  | String c "" => if Ascii.eqb c "."%char then true else false
  | String _ rest => endsWithDot rest
  end.

(** [dns.Fqdn]: append the root label unless the name already ends in a
    dot. *)
Definition Fqdn (s : string) : string :=
  if endsWithDot s then s else s +:+ ".".

Record Request := mkRequest {
  Method : string;
  URL : string;
  Host : string
}.

(** A response body is a stream: [ReadAll] returns what was read before
    the end of the stream or before the read error. *)
Record Response := mkResponse {
  Body : string;
  BodyErr : option string
}.

Definition ReadAll (resp : Response) : string * option string :=
  (Body resp, BodyErr resp).

(** ** Dialers and clients *)

Record Auth := mkAuth { User : string; Password : string }.

(** A SOCKS5 dialer: network, proxy address, credentials, and the dial
    timeout of the forwarding [net.Dialer] (nanoseconds). *)
Record Dialer := mkDialer {
  dNetwork : string;
  dAddr : string;
  dAuth : option Auth;
  dForwardTimeout : Z
}.

Definition Second : Z := 1000000000.

Record DnsClient := mkDnsClient {
  Net : string;
  ReadTimeout : Z;
  DnsDialer : option Dialer
}.

Record HttpClient := mkHttpClient {
  Timeout : Z;
  Transport : option Dialer
}.

(** What the world answers to one probe.  Each call also reports the
    wall-clock time it took ([time.Since]); an error is its message
    ([err.Error()]). *)
Record Env := mkEnv {
  Exchange : DnsClient -> Msg -> string -> Z * (string + list RR);
  NewRequest : string -> string -> option string;
  Do : HttpClient -> Request -> Z * (string + Response)
}.

(** ** Results *)

Record basicResult := mkBasic {
  LookupTook : Z;
  HTTPConnectionTook : Z;
  Error : string;
  Page : string;
  IP : string
}.

Record result := mkResult {
  Name : string;
  Tor : option basicResult;
  Plain : option basicResult
}.

Definition zeroResult : basicResult := mkBasic 0 0 "" "" "".

Definition setLookupTook (v : Z) (r : basicResult) : basicResult :=
  mkBasic v (HTTPConnectionTook r) (Error r) (Page r) (IP r).
Definition setHTTPConnectionTook (v : Z) (r : basicResult) : basicResult :=
  mkBasic (LookupTook r) v (Error r) (Page r) (IP r).
Definition setError (v : string) (r : basicResult) : basicResult :=
  mkBasic (LookupTook r) (HTTPConnectionTook r) v (Page r) (IP r).
Definition setPage (v : string) (r : basicResult) : basicResult :=
  mkBasic (LookupTook r) (HTTPConnectionTook r) (Error r) v (IP r).
Definition setIP (v : string) (r : basicResult) : basicResult :=
  mkBasic (LookupTook r) (HTTPConnectionTook r) (Error r) (Page r) v.

(** ** The prober: [tester.processName] *)

(** The external calls a probe makes, in order. *)
Inductive Call :=
| CExchange (m : Msg) (server : string)
| CNewRequest (method url : string)
| CDo (req : Request)
| CReadAll
| CBodyClose.

(** The loop over [resp.Answer]: the first record that is a [dns.A]
    sets the address and breaks. *)
Fixpoint firstA (answers : list RR) (ip : string) : string :=
  match answers with
  | [] => ip
  | RR_A a :: _ => IPString a
  | RR_other _ _ :: rest => firstA rest ip
  end.

Section Prober.

(** The two programs differ in one message of [processName]. *)
Variable malformed : string.

(** [publicDNS] is the [tester] field the function reads.  The result
    pairs the outcome with the calls that were made. *)
Definition processName (publicDNS : string) (e : Env) (name : string)
    (client : HttpClient) (resolver : DnsClient) (grabPage : bool)
    : basicResult * list Call :=
  let r := zeroResult in
  let msg := SetQuestion (Fqdn name) TypeA (SetEdns0 4096 true (mkMsg None None)) in
  let '(took, resp) := Exchange e resolver msg publicDNS in
  let r := setLookupTook took r in
  let tr := [CExchange msg publicDNS] in
  match resp with
  | inl err => (setError err r, tr)
  | inr answer =>
      if Nat.eqb (length answer) 0 then (setError "No addresses found" r, tr)
      else
        let r := setIP (firstA answer (IP r)) r in
        if String.eqb (IP r) "" then (setError malformed r, tr)
        else
          let url := "http://" +:+ IP r +:+ "/" in
          let tr := tr ++ [CNewRequest "GET" url] in
          match NewRequest e "GET" url with
          | Some err => (setError err r, tr)
          | None =>
              let req := mkRequest "GET" url name in
              let '(ctook, httpResp) := Do e client req in
              let r := setHTTPConnectionTook ctook r in
              let tr := tr ++ [CDo req] in
              match httpResp with
              | inl err => (setError err r, tr)
              | inr httpResp =>
                  if grabPage then
                    let '(body, rerr) := ReadAll httpResp in
                    let r := match rerr with
                             | Some err => setError err r
                             | None => r
                             end in
                    (setPage body r, tr ++ [CReadAll; CBodyClose])
                  else (r, tr ++ [CBodyClose])
              end
          end
  end.

End Prober.

(** ** The proxy identity factory: [randomString] and [newDialer] *)

(** A call either returns or panics, which ends the whole process. *)
Inductive Outcome (A : Type) :=
| Ok (a : A)
| Panic (msg : string).
Arguments Ok {A} a.
Arguments Panic {A} msg.

(** [rand.Read(b)]: the random device fills the whole slice or fails.
    The device is the list of bytes it has yet to deliver. *)
Definition randRead (n : nat) (device : list byte) : option (list byte * list byte) :=
  if Nat.leb n (length device) then Some (take n device, drop n device) else None.

Definition randomString (device : list byte) : Outcome (string * list byte) :=
  match randRead 16 device with
  | None => Panic "unexpected EOF"
  | Some (b, device') => Ok (sprintfX b, device')
  end.

(** [proxy.SOCKS5] of golang.org/x/net: records its arguments. *)
Definition SOCKS5 (network addr : string) (auth : option Auth) (forwardTimeout : Z)
    : string + Dialer :=
  inr (mkDialer network addr auth forwardTimeout).

Section Factory.

(** The dialer constructor, so that its failure can be discussed. *)
Variable socks5 : string -> string -> option Auth -> Z -> string + Dialer.

Definition newDialerWith (device : list byte) : Outcome (Dialer * list byte) :=
  match randomString device with
  | Panic m => Panic m
  | Ok (randStr, device') =>
      match socks5 "tcp" "127.0.0.1:9150" (Some (mkAuth randStr randStr)) (10 * Second) with
      | inl err => Panic err
      | inr p => Ok (p, device')
      end
  end.

End Factory.

Definition newDialer : list byte -> Outcome (Dialer * list byte) := newDialerWith SOCKS5.

(** ** The tester *)

(** Where the tor-path clients come from: [block-tester.go] builds them
    in [process], once per name; the earlier variant keeps one pair in
    the [tester], built in [main]. *)
Inductive TorSetup :=
| PerName
| Fixed (torResolver : DnsClient) (torClient : HttpClient).

Record tester := mkTester {
  resolver : DnsClient;
  publicDNS : string;
  client : HttpClient;
  tor : TorSetup;
  malformedMsg : string
}.

(** [main] of [block-tester.go], up to the construction of [t]. *)
Definition blockTester (dnsAddr : string) : tester :=
  {| resolver := mkDnsClient "tcp" (10 * Second) None;
     publicDNS := dnsAddr;
     client := mkHttpClient (10 * Second) None;
     tor := PerName;
     malformedMsg := "Malformed DNS response" |}.

Record ParsedURL := mkURL {
  Scheme : string;
  UserInfo : option Auth;
  HostPort : string
}.

(** [proxy.FromURL]: a SOCKS5 dialer for the [socks5] scheme, with the
    credentials of the URL when it has any. *)
Definition FromURL (u : ParsedURL) (forwardTimeout : Z) : string + Dialer :=
  if String.eqb (Scheme u) "socks5"
  then SOCKS5 "tcp" (HostPort u) (UserInfo u) forwardTimeout
  else inl ("proxy: unknown scheme: " +:+ Scheme u).

(** [main] of the earlier variant, up to the construction of [t]: an
    error of [proxy.FromURL] is printed and [main] returns. *)
Definition earlierTester (proxyURI : ParsedURL) (dnsAddr : string) : string + tester :=
  match FromURL proxyURI 0 with
  | inl err => inl err
  | inr proxyDialer =>
      inr {| resolver := mkDnsClient "tcp" (10 * Second) None;
             publicDNS := dnsAddr;
             client := mkHttpClient (5 * Second) None;
             tor := Fixed (mkDnsClient "tcp" (10 * Second) (Some proxyDialer))
                          (mkHttpClient (5 * Second) (Some proxyDialer));
             malformedMsg := "Malformed A records" |}
  end.

Definition defaultProxyURI : ParsedURL := mkURL "socks5" None "127.0.0.1:9150".

(** [strings.Split(s, "\n")]: the pieces between newline bytes. *)
Fixpoint Split (s : string) : list string :=
  match s with
  | "" => [""]
  | String c rest =>
      if Ascii.eqb c "010"%char then "" :: Split rest
      else match Split rest with
           | [] => [String c ""]
           | piece :: pieces => String c piece :: pieces
           end
  end.

Definition plainProbe (t : tester) (e : Env) (name : string) : basicResult :=
  fst (processName (malformedMsg t) (publicDNS t) e name (client t) (resolver t) false).

Definition torProbe (t : tester) (e : Env) (name : string)
    (torClient : HttpClient) (torResolver : DnsClient) : basicResult :=
  fst (processName (malformedMsg t) (publicDNS t) e name torClient torResolver true).

(** ** Channels and wait groups *)

Record Chan (A : Type) := mkChan {
  buf : list A;
  cap : nat;
  closed : bool
}.
Arguments mkChan {A} buf cap closed.
Arguments buf {A} c.
Arguments cap {A} c.
Arguments closed {A} c.

Definition makeChan {A} (n : nat) : Chan A := mkChan [] n false.

(** [ch <- x]: [None] when the sender cannot proceed (the buffer is
    full, and nothing here sends on a closed channel). *)
Definition send {A} (x : A) (ch : Chan A) : option (Chan A) :=
  if closed ch then None
  else if Nat.ltb (length (buf ch)) (cap ch)
       then Some (mkChan (buf ch ++ [x]) (cap ch) (closed ch))
       else None.

Definition closeChan {A} (ch : Chan A) : Chan A := mkChan (buf ch) (cap ch) true.

(** One iteration of [for x := range ch]. *)
Inductive Recv (A : Type) :=
| Received (x : A) (ch : Chan A)
| Drained
| Blocked.
Arguments Received {A} x ch.
Arguments Drained {A}.
Arguments Blocked {A}.

Definition recv {A} (ch : Chan A) : Recv A :=
  match buf ch with
  | x :: rest => Received x (mkChan rest (cap ch) (closed ch))
  | [] => if closed ch then Drained else Blocked
  end.

(** [wg.Done()]: [None] is the panic on a negative counter. *)
Definition wgDone (n : nat) : option nat :=
  match n with
  | 0 => None
  | S k => Some k
  end.

(** ** The machine: [main], [tester.run], [tester.process] *)

(** A probe goroutine [go func() { r.X = t.processName(wg, ...) }()]:
    [processName] runs its deferred [wg.Done()] when it returns, and only
    then does the closure store the returned pointer in [r.X]. *)
Inductive GoState :=
| GRunning
| GReturned (res : basicResult)
| GStored.

(** Where a worker stands inside [process]: before the tor clients are
    set up, at [wg.Wait()], at the status line, at the send. *)
Inductive ProcPC := PSetup | PWait | PReport | PSend.

Record Frame := mkFrame {
  fName : string;
  fWg : nat;
  fR : result;
  fPlain : GoState;
  fTor : option (HttpClient * DnsClient * GoState);
  fPC : ProcPC
}.

Inductive Worker :=
| WRange
| WProcess (f : Frame)
| WReturned.

Inductive MainPC :=
| MSpawn (i : Z)
| MWait
| MCollect (acc : list result)
| MEncode (acc : list result).

Record State := mkState {
  names : Chan string;
  results : Chan result;
  runWg : nat;
  pool : list Worker;
  mainPC : MainPC;
  device : list byte;
  stdout : list string;
  torDialers : list (string * option Dialer);
  panicked : option string
}.

Definition withNames v s :=
  mkState v (results s) (runWg s) (pool s) (mainPC s) (device s) (stdout s) (torDialers s) (panicked s).
Definition withResults v s :=
  mkState (names s) v (runWg s) (pool s) (mainPC s) (device s) (stdout s) (torDialers s) (panicked s).
Definition withRunWg v s :=
  mkState (names s) (results s) v (pool s) (mainPC s) (device s) (stdout s) (torDialers s) (panicked s).
Definition withPool v s :=
  mkState (names s) (results s) (runWg s) v (mainPC s) (device s) (stdout s) (torDialers s) (panicked s).
Definition withMainPC v s :=
  mkState (names s) (results s) (runWg s) (pool s) v (device s) (stdout s) (torDialers s) (panicked s).
Definition withDevice v s :=
  mkState (names s) (results s) (runWg s) (pool s) (mainPC s) v (stdout s) (torDialers s) (panicked s).
Definition withStdout v s :=
  mkState (names s) (results s) (runWg s) (pool s) (mainPC s) (device s) v (torDialers s) (panicked s).
Definition withTorDialers v s :=
  mkState (names s) (results s) (runWg s) (pool s) (mainPC s) (device s) (stdout s) v (panicked s).
Definition withPanic m s :=
  mkState (names s) (results s) (runWg s) (pool s) (mainPC s) (device s) (stdout s) (torDialers s) (Some m).

Definition setWorker (w : nat) (x : Worker) (s : State) : State :=
  withPool (<[w:=x]> (pool s)) s.

Definition withPC (pc : ProcPC) (f : Frame) : Frame :=
  mkFrame (fName f) (fWg f) (fR f) (fPlain f) (fTor f) pc.
Definition withWg (n : nat) (f : Frame) : Frame :=
  mkFrame (fName f) n (fR f) (fPlain f) (fTor f) (fPC f).
Definition withR (r : result) (f : Frame) : Frame :=
  mkFrame (fName f) (fWg f) r (fPlain f) (fTor f) (fPC f).
Definition withPlain (g : GoState) (f : Frame) : Frame :=
  mkFrame (fName f) (fWg f) (fR f) g (fTor f) (fPC f).
Definition withTor (c : HttpClient) (d : DnsClient) (g : GoState) (f : Frame) : Frame :=
  mkFrame (fName f) (fWg f) (fR f) (fPlain f) (Some (c, d, g)) (fPC f).

Definition nilDeref : string := "runtime error: invalid memory address or nil pointer dereference".
Definition negativeCounter : string := "sync: negative WaitGroup counter".

(** [main] from the split of the names file to [close(t.names)]; [None]
    if a send on the names channel could not proceed. *)
Definition enqueue (l : list string) (ch : Chan string) : option (Chan string) :=
  fold_left (fun c n => match c with Some c => send n c | None => None end) l (Some ch).

Definition boot (file : string) (dev : list byte) : option State :=
  let splitNames := Split file in
  match enqueue splitNames (makeChan (length splitNames)) with
  | None => None
  | Some ch =>
      Some {| names := closeChan ch;
              results := makeChan (length splitNames);
              runWg := 0; pool := []; mainPC := MSpawn 0;
              device := dev; stdout := []; torDialers := []; panicked := None |}
  end.

(** Who moves next.  A probe goroutine moves twice: [processName] runs
    to its return against the answers [e] of the network, then the
    closure stores the pointer. *)
Inductive Action :=
| AMain
| AWorker (w : nat)
| APlainReturns (w : nat) (e : Env)
| APlainStores (w : nat)
| ATorReturns (w : nat) (e : Env)
| ATorStores (w : nat).

Section Machine.

Variable t : tester.
(** The argument of [t.run]. *)
Variable workers : Z.

(** [main] after [close(t.names)]: the loop of [run] that starts the
    workers, [wg.Wait()], the loop over [t.results], and the encoding
    that follows it. *)
Definition stepMain (s : State) : option State :=
  match mainPC s with
  | MSpawn i =>
      if (i <? workers)%Z
      then Some (withMainPC (MSpawn (i + 1))
                   (withRunWg (S (runWg s)) (withPool (pool s ++ [WRange]) s)))
      else Some (withMainPC MWait s)
  | MWait =>
      match runWg s with
      | 0 => Some (withMainPC (MCollect []) s)
      | S _ => None
      end
  | MCollect acc =>
      match recv (results s) with
      | Received r ch => Some (withMainPC (MCollect (acc ++ [r])) (withResults ch s))
      | Drained => Some (withMainPC (MEncode acc) s)
      | Blocked => None
      end
  | MEncode _ => None
  end.

(** The tor clients of [process] and the start of the tor goroutine. *)
Definition startTor (w : nat) (f : Frame) (s : State) : option State :=
  match tor t with
  | PerName =>
      match newDialer (device s) with
      | Panic m => Some (withPanic m s)
      | Ok (proxyDialer, dev) =>
          let torResolver := mkDnsClient "tcp" (10 * Second) (Some proxyDialer) in
          let torClient := mkHttpClient (10 * Second) (Some proxyDialer) in
          Some (setWorker w (WProcess (withPC PWait (withTor torClient torResolver GRunning f)))
                  (withTorDialers (torDialers s ++ [(fName f, Transport torClient)])
                     (withDevice dev s)))
      end
  | Fixed torResolver torClient =>
      Some (setWorker w (WProcess (withPC PWait (withTor torClient torResolver GRunning f)))
              (withTorDialers (torDialers s ++ [(fName f, Transport torClient)]) s))
  end.

(** A worker of [run]: the loop over [t.names] and, inside it, the
    body of [process].  The frame of [process] ends with the send: a
    store that a probe goroutine has still to make then goes to a
    variable that nobody reads any more. *)
Definition stepWorker (w : nat) (s : State) : option State :=
  match pool s !! w with
  | None | Some WReturned => None
  | Some WRange =>
      match recv (names s) with
      | Received name ch =>
          Some (setWorker w
                  (WProcess (mkFrame name 2 (mkResult name None None) GRunning None PSetup))
                  (withNames ch s))
      | Drained =>
          match wgDone (runWg s) with
          | None => Some (withPanic negativeCounter s)
          | Some n => Some (setWorker w WReturned (withRunWg n s))
          end
      | Blocked => None
      end
  | Some (WProcess f) =>
      match fPC f with
      | PSetup => startTor w f s
      | PWait =>
          match fWg f with
          | 0 => Some (setWorker w (WProcess (withPC PReport f)) s)
          | S _ => None
          end
      | PReport =>
          match Tor (fR f) with
          | None => Some (withPanic nilDeref s)
          | Some tr =>
              let line := if String.eqb (Error tr) "" then ":)" else ":( " +:+ Error tr in
              Some (setWorker w (WProcess (withPC PSend f)) (withStdout (stdout s ++ [line]) s))
          end
      | PSend =>
          match send (fR f) (results s) with
          | Some ch => Some (setWorker w WRange (withResults ch s))
          | None => None
          end
      end
  end.

Definition stepPlainReturns (w : nat) (e : Env) (s : State) : option State :=
  match pool s !! w with
  | Some (WProcess f) =>
      match fPlain f with
      | GRunning =>
          let res := plainProbe t e (fName f) in
          match wgDone (fWg f) with
          | None => Some (withPanic negativeCounter s)
          | Some n => Some (setWorker w (WProcess (withWg n (withPlain (GReturned res) f))) s)
          end
      | _ => None
      end
  | _ => None
  end.

Definition stepPlainStores (w : nat) (s : State) : option State :=
  match pool s !! w with
  | Some (WProcess f) =>
      match fPlain f with
      | GReturned res =>
          let r := mkResult (Name (fR f)) (Tor (fR f)) (Some res) in
          Some (setWorker w (WProcess (withR r (withPlain GStored f))) s)
      | _ => None
      end
  | _ => None
  end.

Definition stepTorReturns (w : nat) (e : Env) (s : State) : option State :=
  match pool s !! w with
  | Some (WProcess f) =>
      match fTor f with
      | Some (torClient, torResolver, GRunning) =>
          let res := torProbe t e (fName f) torClient torResolver in
          match wgDone (fWg f) with
          | None => Some (withPanic negativeCounter s)
          | Some n =>
              Some (setWorker w
                      (WProcess (withWg n (withTor torClient torResolver (GReturned res) f))) s)
          end
      | _ => None
      end
  | _ => None
  end.

Definition stepTorStores (w : nat) (s : State) : option State :=
  match pool s !! w with
  | Some (WProcess f) =>
      match fTor f with
      | Some (torClient, torResolver, GReturned res) =>
          let r := mkResult (Name (fR f)) (Some res) (Plain (fR f)) in
          Some (setWorker w (WProcess (withR r (withTor torClient torResolver GStored f))) s)
      | _ => None
      end
  | _ => None
  end.

(** One step of the program; [None] when the chosen goroutine does
    not exist or is blocked.  A panic ends the process. *)
Definition step (a : Action) (s : State) : option State :=
  match panicked s with
  | Some _ => None
  | None =>
      match a with
      | AMain => stepMain s
      | AWorker w => stepWorker w s
      | APlainReturns w e => stepPlainReturns w e s
      | APlainStores w => stepPlainStores w s
      | ATorReturns w e => stepTorReturns w e s
      | ATorStores w => stepTorStores w s
      end
  end.

Fixpoint exec (sched : list Action) (s : State) : option State :=
  match sched with
  | [] => Some s
  | a :: rest =>
      match step a s with
      | Some s' => exec rest s'
      | None => None
      end
  end.

(** The states of a run on the names file [file] with the random
    device [dev]. *)
Definition reachable (file : string) (dev : list byte) (s : State) : Prop :=
  exists s0 sched, boot file dev = Some s0 /\ exec sched s0 = Some s.

(** No goroutine can move: every action is refused. *)
Definition stuck (s : State) : Prop := forall a, step a s = None.

End Machine.

(** ** Vocabulary of the statements *)

(** The first A record of an answer section, if any. *)
Fixpoint firstARecord (answers : list RR) : option netIP :=
  match answers with
  | [] => None
  | RR_A a :: _ => Some a
  | RR_other _ _ :: rest => firstARecord rest
  end.

(** The query [processName] sends and the request it issues. *)
Definition query (name : string) : Msg :=
  SetQuestion (Fqdn name) TypeA (SetEdns0 4096 true (mkMsg None None)).

Definition urlOf (ip : string) : string := "http://" +:+ ip +:+ "/".

Definition requestOf (ip name : string) : Request := mkRequest "GET" (urlOf ip) name.


(** An answer that is not an A record. *)
Definition notA (rr : RR) : Prop := forall b, rr <> RR_A b.

(** The ways a probe can go, each with the outcome it returns and the
    calls it has made; [processName_run] shows that [processName]
    follows exactly one of them. *)
Inductive ProbeRun (malformed dns : string) (e : Env) (name : string)
    (client : HttpClient) (resolver : DnsClient) (grabPage : bool)
    : basicResult -> list Call -> Prop :=
| RunExchangeError took err :
    Exchange e resolver (query name) dns = (took, inl err) ->
    ProbeRun malformed dns e name client resolver grabPage
      (mkBasic took 0 err "" "") [CExchange (query name) dns]
| RunNoAnswer took :
    Exchange e resolver (query name) dns = (took, inr []) ->
    ProbeRun malformed dns e name client resolver grabPage
      (mkBasic took 0 "No addresses found" "" "") [CExchange (query name) dns]
| RunNoARecord took answers :
    Exchange e resolver (query name) dns = (took, inr answers) ->
    answers <> [] ->
    firstARecord answers = None ->
    ProbeRun malformed dns e name client resolver grabPage
      (mkBasic took 0 malformed "" "") [CExchange (query name) dns]
| RunRequestError took answers a err :
    Exchange e resolver (query name) dns = (took, inr answers) ->
    firstARecord answers = Some a ->
    NewRequest e "GET" (urlOf (IPString a)) = Some err ->
    ProbeRun malformed dns e name client resolver grabPage
      (mkBasic took 0 err "" (IPString a))
      [CExchange (query name) dns; CNewRequest "GET" (urlOf (IPString a))]
| RunDoError took answers a ctook err :
    Exchange e resolver (query name) dns = (took, inr answers) ->
    firstARecord answers = Some a ->
    NewRequest e "GET" (urlOf (IPString a)) = None ->
    Do e client (requestOf (IPString a) name) = (ctook, inl err) ->
    ProbeRun malformed dns e name client resolver grabPage
      (mkBasic took ctook err "" (IPString a))
      [CExchange (query name) dns; CNewRequest "GET" (urlOf (IPString a));
       CDo (requestOf (IPString a) name)]
| RunFetched took answers a ctook resp :
    Exchange e resolver (query name) dns = (took, inr answers) ->
    firstARecord answers = Some a ->
    NewRequest e "GET" (urlOf (IPString a)) = None ->
    Do e client (requestOf (IPString a) name) = (ctook, inr resp) ->
    ProbeRun malformed dns e name client resolver grabPage
      (mkBasic took ctook
         (if grabPage then default "" (BodyErr resp) else "")
         (if grabPage then Body resp else "")
         (IPString a))
      ([CExchange (query name) dns; CNewRequest "GET" (urlOf (IPString a));
        CDo (requestOf (IPString a) name)]
         ++ (if grabPage then [CReadAll; CBodyClose] else [CBodyClose])).

(** The newline bytes of a file, and the inverse of [Split]. *)
Fixpoint countNewlines (s : string) : nat :=
  match s with
  | "" => 0
  | String c rest =>
      if Ascii.eqb c "010"%char then S (countNewlines rest) else countNewlines rest
  end.

Fixpoint joinLines (l : list string) : string :=
  match l with
  | [] => ""
  | [x] => x
  | x :: rest => x +:+ String "010"%char (joinLines rest)
  end.

(** The results [main] has taken off the results channel so far. *)
Definition collected (s : State) : list result :=
  match mainPC s with
  | MCollect acc | MEncode acc => acc
  | MSpawn _ | MWait => []
  end.

(** A result that [process] has sent. *)
Definition emitted (s : State) (r : result) : Prop :=
  In r (buf (results s)) \/ In r (collected s).

(** Outcomes that come from the prober: a plain outcome is what
    [processName] returns for the shared client and resolver without
    page capture, a tor outcome what it returns for some tor client and
    resolver with page capture. *)
Definition plainOutcome (t : tester) (name : string) (p : basicResult) : Prop :=
  exists e, p = plainProbe t e name.

Definition torOutcome (t : tester) (name : string) (q : basicResult) : Prop :=
  exists e torClient torResolver, q = torProbe t e name torClient torResolver.

Definition resultOK (t : tester) (r : result) : Prop :=
  (forall p, Plain r = Some p -> plainOutcome t (Name r) p)
  /\ (forall q, Tor r = Some q -> torOutcome t (Name r) q).

Definition frameOK (t : tester) (f : Frame) : Prop :=
  Name (fR f) = fName f
  /\ resultOK t (fR f)
  /\ (forall res, fPlain f = GReturned res -> plainOutcome t (fName f) res)
  /\ (forall c d res, fTor f = Some (c, d, GReturned res) -> torOutcome t (fName f) res).

Definition workerOK (t : tester) (w : Worker) : Prop :=
  match w with
  | WProcess f => frameOK t f
  | WRange | WReturned => True
  end.

Definition stateOK (t : tester) (s : State) : Prop :=
  Forall (workerOK t) (pool s)
  /\ Forall (resultOK t) (buf (results s))
  /\ Forall (resultOK t) (collected s).

(** The dialer [newDialer] builds from the random bytes [b], and the
    [i]-th block of 16 bytes of a random device. *)
Definition identity (b : list byte) : Dialer :=
  mkDialer "tcp" "127.0.0.1:9150" (Some (mkAuth (sprintfX b) (sprintfX b))) (10 * Second).

Definition block (i : nat) (dev : list byte) : list byte := take 16 (drop (16 * i) dev).

(** The log of tor dialers of a state agrees with the random device
    [dev0] the run started with: the [i]-th tor probe got the dialer
    built from the [i]-th block, and the device has delivered exactly
    those blocks. *)
Definition freshLog (dev0 : list byte) (s : State) : Prop :=
  device s = drop (16 * length (torDialers s)) dev0
  /\ 16 * length (torDialers s) <= length dev0
  /\ forall i n d, torDialers s !! i = Some (n, d) -> d = Some (identity (block i dev0)).

(** ** Counting, for the dispatcher *)

Definition sumOver (f : Worker -> nat) (l : list Worker) : nat :=
  foldr (fun w n => f w + n) 0 l.

Definition inProcess (w : Worker) : nat :=
  match w with
  | WProcess _ => 1
  | WRange | WReturned => 0
  end.

Definition alive (w : Worker) : nat :=
  match w with
  | WReturned => 0
  | WRange | WProcess _ => 1
  end.

Definition running (g : GoState) : nat :=
  match g with
  | GRunning => 1
  | GReturned _ | GStored => 0
  end.

(** The probes of a frame that have not yet called [wg.Done()]; the tor
    probe counts from [wg.Add(2)] on, before its goroutine exists. *)
Definition pending (f : Frame) : nat :=
  running (fPlain f)
  + match fTor f with
    | None => 1
    | Some (_, _, g) => running g
    end.

Definition frameCounts (w : Worker) : Prop :=
  match w with
  | WProcess f => fWg f = pending f /\ (fPC f = PSetup <-> fTor f = None)
  | WRange | WReturned => True
  end.

(** What [main] can rely on at each of its program points. *)
Definition mainCounts (workers : Z) (s : State) : Prop :=
  match mainPC s with
  | MSpawn i => (0 <= i)%Z /\ length (pool s) = Z.to_nat i
  | MWait => (workers <= Z.of_nat (length (pool s)))%Z
  | MCollect _ => (workers <= Z.of_nat (length (pool s)))%Z /\ sumOver alive (pool s) = 0
  | MEncode _ => False
  end.

(** The bookkeeping of a run on [n] names: every name is on the names
    channel, with a worker, on the results channel or collected; the
    wait group of [run] counts the workers that have not returned. *)
Definition counts (workers : Z) (n : nat) (s : State) : Prop :=
  closed (names s) = true
  /\ cap (results s) = n
  /\ closed (results s) = false
  /\ length (buf (names s)) + sumOver inProcess (pool s)
     + length (buf (results s)) + length (collected s) = n
  /\ runWg s = sumOver alive (pool s)
  /\ Forall frameCounts (pool s)
  /\ (In WReturned (pool s) -> buf (names s) = [])
  /\ mainCounts workers s.

(** The number of steps a state still allows, at most. *)
Definition mainSteps (workers : Z) (pc : MainPC) : nat :=
  match pc with
  | MSpawn i => 2 * Z.to_nat (workers - i) + 3
  | MWait => 2
  | MCollect _ => 1
  | MEncode _ => 0
  end.

Definition goSteps (g : GoState) : nat :=
  match g with
  | GRunning => 2
  | GReturned _ => 1
  | GStored => 0
  end.

Definition workerSteps (w : Worker) : nat :=
  match w with
  | WRange => 1
  | WReturned => 0
  | WProcess f =>
      1 + match fPC f with PSetup => 7 | PWait => 4 | PReport => 3 | PSend => 2 end
      + goSteps (fPlain f)
      + match fTor f with
        | None => 0
        | Some (_, _, g) => goSteps g
        end
  end.

Definition stepsLeft (workers : Z) (s : State) : nat :=
  match panicked s with
  | Some _ => 0
  | None =>
      1 + mainSteps workers (mainPC s) + 10 * length (buf (names s))
      + sumOver workerSteps (pool s) + length (buf (results s))
  end.

(** ** Vocabulary of the further properties *)

(** The characters [%X] prints. *)
Definition isUpperHex (c : ascii) : bool :=
  existsb (Ascii.eqb c) (list_ascii_of_string "0123456789ABCDEF").

(** The name a worker is busy with, as a list with at most one entry,
    and how often [name] occurs there. *)
Definition busyWith (name : string) (w : Worker) : nat :=
  match w with
  | WProcess f => if String.eqb name (fName f) then 1 else 0
  | WRange | WReturned => 0
  end.

Definition occurrences (name : string) (l : list string) : nat :=
  count_occ string_dec l name.

(** Where the names of a run are: collected, on the results channel,
    with a worker, or still on the names channel. *)
Definition accountedFor (name : string) (s : State) : nat :=
  occurrences name (map Name (collected s))
  + occurrences name (map Name (buf (results s)))
  + sumOver (busyWith name) (pool s)
  + occurrences name (buf (names s)).

Definition busyName (w : Worker) : list string :=
  match w with
  | WProcess f => [fName f]
  | WRange | WReturned => []
  end.

(** The same as one list, in the order collected, sent, in process,
    waiting. *)
Definition namesInOrder (s : State) : list string :=
  map Name (collected s) ++ map Name (buf (results s))
    ++ flat_map busyName (pool s) ++ buf (names s).

(** Workers that have printed the status line and not yet sent. *)
Definition atSend (w : Worker) : nat :=
  match w with
  | WProcess f => match fPC f with PSend => 1 | _ => 0 end
  | WRange | WReturned => 0
  end.

(** Workers that have not yet set up the tor probe of their name. *)
Definition atSetup (w : Worker) : nat :=
  match w with
  | WProcess f => match fPC f with PSetup => 1 | _ => 0 end
  | WRange | WReturned => 0
  end.

(** A status line of [process]. *)
Definition statusLine (line : string) : Prop :=
  line = ":)" \/ exists err, err <> "" /\ line = ":( " +:+ err.

(** The tor outcome is present in what a worker is about to send. *)
Definition torPresent (w : Worker) : Prop :=
  match w with
  | WProcess f => fPC f = PSend -> Tor (fR f) <> None
  | WRange | WReturned => True
  end.

(** The clients of a started tor probe, by program: in block-tester.go
    a resolver and a client over one SOCKS5 dialer for
    [127.0.0.1:9150] with generated credentials; in the earlier variant
    the pair of the [tester]. *)
Definition torClients (t : tester) (c : HttpClient) (d : DnsClient) : Prop :=
  match tor t with
  | PerName =>
      exists b, c = mkHttpClient (10 * Second) (Some (identity b))
                /\ d = mkDnsClient "tcp" (10 * Second) (Some (identity b))
  | Fixed torResolver torClient => c = torClient /\ d = torResolver
  end.

Definition torClientsOf (t : tester) (w : Worker) : Prop :=
  match w with
  | WProcess f =>
      match fTor f with
      | Some (c, d, _) => torClients t c d
      | None => True
      end
  | WRange | WReturned => True
  end.

(** Past [wg.Wait()] the counter of the frame is zero. *)
Definition joined (w : Worker) : Prop :=
  match w with
  | WProcess f => fPC f = PReport \/ fPC f = PSend -> fWg f = 0
  | WRange | WReturned => True
  end.

(** ** Sample worlds *)

Definition exampleAddr : netIP := IPv4 Byte.x5d Byte.xb8 Byte.xd8 Byte.x22.

(** The name resolves (after an alias record) and the origin serves a
    page. *)
Definition envOK : Env :=
  mkEnv (fun _ _ _ => (5%Z, inr [RR_other 5 "alias.example.net."; RR_A exampleAddr]))
        (fun _ _ => None)
        (fun _ _ => (7%Z, inr (mkResponse "hello" None))).

(** The resolver does not answer in time. *)
Definition envTimeout : Env :=
  mkEnv (fun _ _ _ => (10000000000%Z, inl "i/o timeout"))
        (fun _ _ => None)
        (fun _ _ => (0%Z, inl "unused")).

(** The answer section is empty. *)
Definition envNoAnswer : Env :=
  mkEnv (fun _ _ _ => (3%Z, inr []))
        (fun _ _ => None)
        (fun _ _ => (0%Z, inl "unused")).

(** The answer section holds an alias only. *)
Definition envNoA : Env :=
  mkEnv (fun _ _ _ => (3%Z, inr [RR_other 5 "alias.example.net."]))
        (fun _ _ => None)
        (fun _ _ => (0%Z, inl "unused")).

(** The name resolves and nothing listens at the address. *)
Definition envRefused : Env :=
  mkEnv (fun _ _ _ => (5%Z, inr [RR_A exampleAddr]))
        (fun _ _ => None)
        (fun _ _ => (2%Z, inl "connection refused")).

(** The origin answers and the body breaks off. *)
Definition envReadFails : Env :=
  mkEnv (fun _ _ _ => (5%Z, inr [RR_A exampleAddr]))
        (fun _ _ => None)
        (fun _ _ => (7%Z, inr (mkResponse "<html" (Some "unexpected EOF")))).

Definition sampleClient : HttpClient := mkHttpClient (10 * Second) None.
Definition sampleResolver : DnsClient := mkDnsClient "tcp" (10 * Second) None.

(** A random device that delivers the byte [0x41] sixteen times, and one
    that delivers the same sixteen bytes twice. *)
Definition dev16 : list byte := repeat Byte.x41 16.
Definition devRepeating : list byte := repeat Byte.x41 32.

(** A random device that delivers sixteen times [0x41] and then sixteen
    times [0x42]. *)
Definition devTwoBlocks : list byte := repeat Byte.x41 16 ++ repeat Byte.x42 16.

Definition newline : string := String "010"%char "".

(** A names file with two names and a trailing newline, and one with
    two names and none. *)
Definition sampleFile : string := "example.com" +:+ newline +:+ "example.org" +:+ newline.
Definition fileAB : string := "a" +:+ newline +:+ "b".

(** The schedule of a run on one name with one worker in which every
    goroutine finishes its work: [main] starts the worker and waits;
    the worker takes the name and starts the tor probe; both probes
    return and store their outcomes; the worker prints the status line,
    sends the result, finds the names channel drained and returns;
    [main] takes the result off the results channel. *)
Definition scheduleOneName : list Action :=
  [AMain; AMain; AWorker 0; AWorker 0;
   APlainReturns 0 envOK; APlainStores 0; ATorReturns 0 envOK; ATorStores 0;
   AWorker 0; AWorker 0; AWorker 0; AWorker 0; AMain; AMain].

(** Two schedules in which the worker is woken by the second
    [wg.Done()] before a probe goroutine has stored its outcome. *)
Definition scheduleNilTor : list Action :=
  [AMain; AMain; AWorker 0; AWorker 0;
   APlainReturns 0 envOK; ATorReturns 0 envOK;
   AWorker 0; AWorker 0].

Definition scheduleNilPlain : list Action :=
  [AMain; AMain; AWorker 0; AWorker 0;
   APlainReturns 0 envOK; ATorReturns 0 envOK; ATorStores 0;
   AWorker 0; AWorker 0; AWorker 0].

(** Two workers take one name each and start its tor probe. *)
Definition scheduleTwoProbes : list Action :=
  [AMain; AMain; AWorker 0; AWorker 0; AWorker 1; AWorker 1].

(** The same in the earlier variant, whose [main] starts five workers. *)
Definition scheduleTwoProbesOfFive : list Action :=
  [AMain; AMain; AMain; AMain; AMain; AWorker 0; AWorker 0; AWorker 1; AWorker 1].

(** One worker works off the first name: the plain probe succeeds, the
    tor probe is refused; both outcomes are stored before the worker
    goes on, prints the status line, sends the result and takes the
    next name. *)
Definition scheduleFirstName : list Action :=
  [AMain; AMain; AWorker 0; AWorker 0; APlainReturns 0 envOK; APlainStores 0;
   ATorReturns 0 envRefused; ATorStores 0; AWorker 0; AWorker 0; AWorker 0; AWorker 0].

(** * Properties *)

(** ** Printing *)

Lemma append_nonempty_r (s1 s2 : string) : s2 <> "" -> s1 +:+ s2 <> "".
Proof.
  intros H. destruct s1 as [|c s1]; simpl; [assumption | discriminate].
Qed.

Lemma IPString_nonempty (ip : netIP) : IPString ip <> "".
Proof.
  destruct ip as [|a b c d]; simpl; [discriminate |].
  apply append_nonempty_r. discriminate.
Qed.

Lemma hexDigit_inj (m n : nat) : m < 16 -> n < 16 -> hexDigit m = hexDigit n -> m = n.
Proof.
  intros Hm Hn.
  do 16 (destruct m as [|m]; [do 16 (destruct n as [|n]; [simpl; congruence |]); lia |]).
  lia.
Qed.

Lemma hexPair_inj (x y : byte) :
  hexDigit (Byte.to_nat x / 16) = hexDigit (Byte.to_nat y / 16) ->
  hexDigit (Byte.to_nat x mod 16) = hexDigit (Byte.to_nat y mod 16) ->
  x = y.
Proof.
  intros Hhi Hlo.
  pose proof (Byte.to_nat_bounded x) as Bx. pose proof (Byte.to_nat_bounded y) as By.
  apply hexDigit_inj in Hhi;
    [| apply Nat.Div0.div_lt_upper_bound; lia | apply Nat.Div0.div_lt_upper_bound; lia].
  apply hexDigit_inj in Hlo; [| apply Nat.mod_upper_bound; lia | apply Nat.mod_upper_bound; lia].
  assert (E : Byte.to_nat x = Byte.to_nat y).
  { rewrite (Nat.div_mod_eq (Byte.to_nat x) 16), (Nat.div_mod_eq (Byte.to_nat y) 16). lia. }
  assert (S : Some x = Some y) by (rewrite <- !Byte.of_to_nat, E; reflexivity).
  congruence.
Qed.

(** Hexadecimal printing loses nothing: equal strings come from equal
    byte slices. *)
Lemma sprintfX_inj (b1 b2 : list byte) : sprintfX b1 = sprintfX b2 -> b1 = b2.
Proof.
  revert b2. induction b1 as [|x b1 IH]; intros [|y b2] H; simpl in H;
    try discriminate; [reflexivity |].
  injection H as Hhi Hlo Hrest.
  f_equal; [apply hexPair_inj; assumption | apply IH; assumption].
Qed.

Lemma sprintfX_length (b : list byte) : String.length (sprintfX b) = 2 * length b.
Proof. induction b as [|x b IH]; simpl; [reflexivity | rewrite IH; lia]. Qed.

(** ** The answer loop *)


Lemma firstA_spec (answers : list RR) (ip : string) :
  firstA answers ip = match firstARecord answers with
                      | Some a => IPString a
                      | None => ip
                      end.
Proof.
  induction answers as [|[a|ty rd] rest IH]; simpl; [reflexivity | reflexivity | exact IH].
Qed.

(** The A records before the first one: there are none. *)
Lemma firstARecord_Some (answers : list RR) (a : netIP) :
  firstARecord answers = Some a <->
  exists pre post, answers = pre ++ RR_A a :: post /\
                   Forall (fun rr => forall b, rr <> RR_A b) pre.
Proof.
  split.
  - induction answers as [|[b|ty rd] rest IH]; simpl; intros H; [discriminate | |].
    + injection H as ->. exists [], rest. split; [reflexivity | constructor].
    + destruct (IH H) as (pre & post & -> & Hpre).
      exists (RR_other ty rd :: pre), post. split; [reflexivity |].
      constructor; [intros b; discriminate | assumption].
  - intros (pre & post & -> & Hpre).
    induction Hpre as [|rr pre Hrr _ IH]; simpl; [reflexivity |].
    destruct rr as [b|ty rd]; [exfalso; apply (Hrr b); reflexivity | exact IH].
Qed.

Lemma firstARecord_None (answers : list RR) :
  firstARecord answers = None <-> Forall (fun rr => forall b, rr <> RR_A b) answers.
Proof.
  split.
  - induction answers as [|[b|ty rd] rest IH]; simpl; intros H;
      [constructor | discriminate |].
    constructor; [intros b; discriminate | apply IH; assumption].
  - induction 1 as [|rr rest Hrr _ IH]; simpl; [reflexivity |].
    destruct rr as [b|ty rd]; [exfalso; apply (Hrr b); reflexivity | exact IH].
Qed.


(** ** The prober, step by step *)

Section ProberSteps.

Variables (malformed dns : string) (e : Env) (name : string).
Variables (client : HttpClient) (resolver : DnsClient) (grabPage : bool).

Let probe := processName malformed dns e name client resolver grabPage.

Lemma probe_exchange_error (took : Z) (err : string) :
  Exchange e resolver (query name) dns = (took, inl err) ->
  probe = (mkBasic took 0 err "" "", [CExchange (query name) dns]).
Proof.
  intros H. unfold probe, processName. fold (query name). rewrite H. reflexivity.
Qed.

Lemma probe_no_answer (took : Z) :
  Exchange e resolver (query name) dns = (took, inr []) ->
  probe = (mkBasic took 0 "No addresses found" "" "", [CExchange (query name) dns]).
Proof.
  intros H. unfold probe, processName. fold (query name). rewrite H. reflexivity.
Qed.

Lemma probe_no_A_record (took : Z) (answers : list RR) :
  Exchange e resolver (query name) dns = (took, inr answers) ->
  answers <> [] ->
  firstARecord answers = None ->
  probe = (mkBasic took 0 malformed "" "", [CExchange (query name) dns]).
Proof.
  intros H Hne Hfirst. unfold probe, processName. fold (query name). rewrite H.
  destruct answers as [|rr rest]; [congruence |].
  cbn [length Nat.eqb setIP setLookupTook zeroResult IP].
  rewrite firstA_spec, Hfirst. reflexivity.
Qed.

Section Resolved.

Variables (took : Z) (answers : list RR) (a : netIP).
Hypothesis Hexchange : Exchange e resolver (query name) dns = (took, inr answers).
Hypothesis Hfirst : firstARecord answers = Some a.

Let ip := IPString a.
Let upToRequest := [CExchange (query name) dns; CNewRequest "GET" (urlOf ip)].

Lemma probe_resolved :
  probe =
  match NewRequest e "GET" (urlOf ip) with
  | Some err => (mkBasic took 0 err "" ip, upToRequest)
  | None =>
      match Do e client (requestOf ip name) with
      | (ctook, inl err) => (mkBasic took ctook err "" ip, upToRequest ++ [CDo (requestOf ip name)])
      | (ctook, inr resp) =>
          if grabPage
          then (mkBasic took ctook (default "" (BodyErr resp)) (Body resp) ip,
                upToRequest ++ [CDo (requestOf ip name); CReadAll; CBodyClose])
          else (mkBasic took ctook "" "" ip,
                upToRequest ++ [CDo (requestOf ip name); CBodyClose])
      end
  end.
Proof.
  unfold probe, processName. fold (query name). rewrite Hexchange.
  destruct answers as [|rr rest] eqn:Ea; [discriminate |]. rewrite <- Ea in *.
  replace (Nat.eqb (length answers) 0) with false by (rewrite Ea; reflexivity).
  cbn [setIP setLookupTook zeroResult IP LookupTook HTTPConnectionTook Error Page].
  rewrite firstA_spec, Hfirst. fold ip.
  destruct (String.eqb ip "") eqn:Eip.
  { apply String.eqb_eq in Eip. exfalso. exact (IPString_nonempty a Eip). }
  fold (urlOf ip). destruct (NewRequest e "GET" (urlOf ip)) as [err|]; [reflexivity |].
  fold (requestOf ip name).
  destruct (Do e client (requestOf ip name)) as [ctook [err|resp]]; [reflexivity |].
  destruct grabPage; [| reflexivity].
  unfold ReadAll. destruct (BodyErr resp) as [err|]; reflexivity.
Qed.

End Resolved.

End ProberSteps.

Lemma processName_run malformed dns e name client resolver grabPage :
  ProbeRun malformed dns e name client resolver grabPage
    (fst (processName malformed dns e name client resolver grabPage))
    (snd (processName malformed dns e name client resolver grabPage)).
Proof.
  destruct (Exchange e resolver (query name) dns) as [took [err|answers]] eqn:Hx.
  - rewrite (probe_exchange_error _ _ _ _ _ _ _ _ _ Hx). eapply RunExchangeError; eassumption.
  - destruct answers as [|rr rest] eqn:Ea.
    { rewrite (probe_no_answer _ _ _ _ _ _ _ _ Hx). eapply RunNoAnswer; eassumption. }
    rewrite <- Ea in *. assert (Hne : answers <> []) by (rewrite Ea; discriminate).
    clear Ea. destruct (firstARecord answers) as [a|] eqn:Hfirst.
    + rewrite (probe_resolved _ _ _ _ _ _ _ _ _ _ Hx Hfirst).
      destruct (NewRequest e "GET" (urlOf (IPString a))) as [err|] eqn:Hreq.
      { eapply RunRequestError; eassumption. }
      destruct (Do e client (requestOf (IPString a) name)) as [ctook [err|resp]] eqn:Hdo.
      { eapply RunDoError; eassumption. }
      pose proof (RunFetched malformed dns e name client resolver grabPage
                    took answers a ctook resp Hx Hfirst Hreq Hdo) as R.
      destruct grabPage; exact R.
    + rewrite (probe_no_A_record _ _ _ _ _ _ _ _ _ Hx Hne Hfirst).
      eapply RunNoARecord; eassumption.
Qed.

(** ** What the resolution step reports *)

(** C3, as the specification words it, fails: the messages of the code are
    capitalised and worded differently. *)
Lemma resolution_messages_differ_from_spec :
  Error (plainProbe (blockTester "8.8.8.8:53") envNoAnswer "example.com") <> "no addresses found"
  /\ Error (plainProbe (blockTester "8.8.8.8:53") envNoA "example.com") <> "malformed response".
Proof. split; vm_compute; discriminate. Qed.

(** C3 (amended): when the exchange returns an answer section, an empty
    section gives the error [No addresses found]; a non-empty section
    without an A record gives the malformed-response message of the
    program ([Malformed DNS response] in block-tester.go,
    [Malformed A records] in the earlier variant); otherwise the IP of
    the outcome is the address of the first A record of the section. *)
Theorem resolution_outcome malformed dns e name client resolver grabPage took answers :
  Exchange e resolver (query name) dns = (took, inr answers) ->
  let r := fst (processName malformed dns e name client resolver grabPage) in
  (answers = [] -> Error r = "No addresses found")
  /\ (answers <> [] -> Forall notA answers -> Error r = malformed)
  /\ (forall pre a post,
        answers = pre ++ RR_A a :: post -> Forall notA pre -> IP r = IPString a)
  /\ malformedMsg (blockTester dns) = "Malformed DNS response"
  /\ (forall u t, earlierTester u dns = inr t -> malformedMsg t = "Malformed A records").
Proof.
  intros Hx r. repeat split.
  - intros ->. unfold r. rewrite (probe_no_answer _ _ _ _ _ _ _ _ Hx). reflexivity.
  - intros Hne Hall. apply firstARecord_None in Hall. unfold r.
    rewrite (probe_no_A_record _ _ _ _ _ _ _ _ _ Hx Hne Hall). reflexivity.
  - intros pre a post Ha Hpre.
    assert (Hfirst : firstARecord answers = Some a).
    { apply firstARecord_Some. exists pre, post. split; assumption. }
    unfold r. rewrite (probe_resolved _ _ _ _ _ _ _ _ _ _ Hx Hfirst).
    destruct (NewRequest e "GET" (urlOf (IPString a))); [reflexivity |].
    destruct (Do e client (requestOf (IPString a) name)) as [ctook [err|resp]];
      [reflexivity |].
    destruct grabPage; reflexivity.
  - intros u t. unfold earlierTester. destruct (FromURL u 0); [discriminate |].
    intros H. injection H as <-. reflexivity.
Qed.

Lemma resolution_outcome_witness :
  let r := fst (processName "Malformed DNS response" "8.8.8.8:53" envOK "example.com"
                  sampleClient sampleResolver true) in
  ([RR_other 5 "alias.example.net."; RR_A exampleAddr] = [] -> Error r = "No addresses found")
  /\ ([RR_other 5 "alias.example.net."; RR_A exampleAddr] <> [] ->
      Forall notA [RR_other 5 "alias.example.net."; RR_A exampleAddr] ->
      Error r = "Malformed DNS response")
  /\ (forall pre a post,
        [RR_other 5 "alias.example.net."; RR_A exampleAddr] = pre ++ RR_A a :: post ->
        Forall notA pre -> IP r = IPString a)
  /\ malformedMsg (blockTester "8.8.8.8:53") = "Malformed DNS response"
  /\ (forall u t, earlierTester u "8.8.8.8:53" = inr t -> malformedMsg t = "Malformed A records").
Proof.
  apply (resolution_outcome "Malformed DNS response" "8.8.8.8:53" envOK "example.com"
           sampleClient sampleResolver true 5%Z).
  reflexivity.
Defined.

(** ** Error and IP of a returned outcome *)

(** C2, as the specification words it, fails: when the name resolves and the
    HTTP exchange fails, the returned outcome carries both the address
    and the error. *)
Lemma refused_outcome_has_error_and_ip :
  let r := plainProbe (blockTester "8.8.8.8:53") envRefused "example.com" in
  Error r <> "" /\ IP r <> "".
Proof. split; vm_compute; discriminate. Qed.

Local Ltac resolved_case a :=
  let E := fresh "E" in
  let Hne := fresh "Hne" in
  pose proof (IPString_nonempty a);
  split; [split; [intros E; contradiction | discriminate] |];
  split; [intros E; contradiction |];
  intros ? E; injection E as <-; split; [reflexivity |]; intros Hne.

(** C2 (amended): the returned outcome has an empty IP exactly when the
    resolution step failed, and then its Error is set (error messages
    being non-empty), so the two are never both empty; when resolution
    succeeded the IP is the resolved address, and the Error is set as
    well only if the request construction, the HTTP exchange or the
    requested body read failed afterwards. *)
Theorem outcome_error_and_ip malformed dns e name client resolver grabPage :
  malformed <> "" ->
  (forall took err, Exchange e resolver (query name) dns = (took, inl err) -> err <> "") ->
  let r := fst (processName malformed dns e name client resolver grabPage) in
  let resolved := match snd (Exchange e resolver (query name) dns) with
                  | inl _ => None
                  | inr answers => firstARecord answers
                  end in
  (IP r = "" <-> resolved = None)
  /\ (IP r = "" -> Error r <> "")
  /\ (forall a, resolved = Some a ->
        IP r = IPString a
        /\ (Error r <> "" ->
            NewRequest e "GET" (urlOf (IP r)) = Some (Error r)
            \/ (exists ctook, Do e client (requestOf (IP r) name) = (ctook, inl (Error r)))
            \/ (grabPage = true
                /\ exists ctook resp,
                     Do e client (requestOf (IP r) name) = (ctook, inr resp)
                     /\ BodyErr resp = Some (Error r)))).
Proof.
  intros Hm Herr r resolved.
  pose proof (processName_run malformed dns e name client resolver grabPage) as R.
  fold r in R. unfold resolved.
  inversion R as [took err Hx Hr | took Hx Hr | took answers Hx Hne Hf Hr
                 | took answers a err Hx Hf Hreq Hr
                 | took answers a ctook err Hx Hf Hreq Hdo Hr
                 | took answers a ctook resp Hx Hf Hreq Hdo Hr];
    rewrite Hx; cbn [snd IP Error]; clear R.
  - repeat split; try discriminate. intros _. exact (Herr _ _ Hx).
  - repeat split; discriminate.
  - rewrite Hf. repeat split; try discriminate. intros _. exact Hm.
  - rewrite Hf. resolved_case a. left. exact Hreq.
  - rewrite Hf. resolved_case a. right. left. exists ctook. exact Hdo.
  - rewrite Hf. resolved_case a. right. right.
    destruct grabPage; [| exfalso; apply Hne; reflexivity]. split; [reflexivity |].
    exists ctook, resp. split; [exact Hdo |].
    destruct (BodyErr resp) as [err|]; [reflexivity | exfalso; apply Hne; reflexivity].
Qed.

Lemma outcome_error_and_ip_witness :
  let r := fst (processName "Malformed DNS response" "8.8.8.8:53" envRefused "example.com"
                  sampleClient sampleResolver false) in
  (IP r = "" -> Error r <> "")
  /\ IP r = IPString exampleAddr
  /\ (Error r <> "" ->
      NewRequest envRefused "GET" (urlOf (IP r)) = Some (Error r)
      \/ (exists ctook,
            Do envRefused sampleClient (requestOf (IP r) "example.com") = (ctook, inl (Error r)))
      \/ (false = true
          /\ exists ctook resp,
               Do envRefused sampleClient (requestOf (IP r) "example.com") = (ctook, inr resp)
               /\ BodyErr resp = Some (Error r))).
Proof.
  destruct (outcome_error_and_ip "Malformed DNS response" "8.8.8.8:53" envRefused
              "example.com" sampleClient sampleResolver false
              ltac:(discriminate) ltac:(intros ? ? H; discriminate H))
    as (_ & Hempty & Hresolved).
  destruct (Hresolved exampleAddr eq_refl) as [Hip Hlater].
  split; [exact Hempty | split; [exact Hip | exact Hlater]].
Defined.

(** ** Failures stay inside the outcome *)

(** C5: [processName] is a total function with one result, the
    outcome, and no error result.  A failed exchange, an empty answer
    section or a section without an A record ends the probe after the
    exchange; a request that cannot be built ends it before the HTTP
    exchange; a failed HTTP exchange ends it before the body is read.
    In each case the outcome carries the message of that first failure
    in Error, and a probe in which nothing fails returns an empty Error. *)
Theorem processName_short_circuits malformed dns e name client resolver grabPage :
  let out := processName malformed dns e name client resolver grabPage in
  let q := CExchange (query name) dns in
  (forall took err,
     Exchange e resolver (query name) dns = (took, inl err) ->
     out = (mkBasic took 0 err "" "", [q]))
  /\ (forall took,
        Exchange e resolver (query name) dns = (took, inr []) ->
        out = (mkBasic took 0 "No addresses found" "" "", [q]))
  /\ (forall took answers,
        Exchange e resolver (query name) dns = (took, inr answers) ->
        answers <> [] -> Forall notA answers ->
        out = (mkBasic took 0 malformed "" "", [q]))
  /\ (forall took answers pre a post,
        Exchange e resolver (query name) dns = (took, inr answers) ->
        answers = pre ++ RR_A a :: post -> Forall notA pre ->
        let ip := IPString a in
        let rq := CNewRequest "GET" (urlOf ip) in
        let req := requestOf ip name in
        (forall err,
           NewRequest e "GET" (urlOf ip) = Some err ->
           out = (mkBasic took 0 err "" ip, [q; rq]))
        /\ (forall ctook err,
              NewRequest e "GET" (urlOf ip) = None ->
              Do e client req = (ctook, inl err) ->
              out = (mkBasic took ctook err "" ip, [q; rq; CDo req]))
        /\ (forall ctook resp,
              NewRequest e "GET" (urlOf ip) = None ->
              Do e client req = (ctook, inr resp) ->
              out = if grabPage
                    then (mkBasic took ctook (default "" (BodyErr resp)) (Body resp) ip,
                          [q; rq; CDo req; CReadAll; CBodyClose])
                    else (mkBasic took ctook "" "" ip, [q; rq; CDo req; CBodyClose]))).
Proof.
  intros out q. unfold out, q. repeat apply conj.
  - intros took err Hx. exact (probe_exchange_error _ _ _ _ _ _ _ _ _ Hx).
  - intros took Hx. exact (probe_no_answer _ _ _ _ _ _ _ _ Hx).
  - intros took answers Hx Hne Hall. apply firstARecord_None in Hall.
    exact (probe_no_A_record _ _ _ _ _ _ _ _ _ Hx Hne Hall).
  - intros took answers pre a post Hx Ha Hpre.
    assert (Hfirst : firstARecord answers = Some a).
    { apply firstARecord_Some. exists pre, post. split; assumption. }
    pose proof (probe_resolved malformed dns e name client resolver grabPage
                  took answers a Hx Hfirst) as P.
    repeat apply conj.
    + intros err Hreq. rewrite Hreq in P. exact P.
    + intros ctook err Hreq Hdo. rewrite Hreq, Hdo in P. exact P.
    + intros ctook resp Hreq Hdo. rewrite Hreq, Hdo in P. rewrite P.
      destruct grabPage; reflexivity.
Qed.

Lemma processName_short_circuits_witness :
  processName "Malformed DNS response" "8.8.8.8:53" envTimeout "example.com"
    sampleClient sampleResolver true
  = (mkBasic 10000000000 0 "i/o timeout" "" "", [CExchange (query "example.com") "8.8.8.8:53"])
  /\ processName "Malformed DNS response" "8.8.8.8:53" envRefused "example.com"
       sampleClient sampleResolver true
     = (mkBasic 5 2 "connection refused" "" (IPString exampleAddr),
        [CExchange (query "example.com") "8.8.8.8:53";
         CNewRequest "GET" (urlOf (IPString exampleAddr));
         CDo (requestOf (IPString exampleAddr) "example.com")]).
Proof.
  split.
  - apply (processName_short_circuits "Malformed DNS response" "8.8.8.8:53" envTimeout
             "example.com" sampleClient sampleResolver true).
    reflexivity.
  - destruct (processName_short_circuits "Malformed DNS response" "8.8.8.8:53" envRefused
                "example.com" sampleClient sampleResolver true) as (_ & _ & _ & H).
    destruct (H 5%Z [RR_A exampleAddr] [] exampleAddr [] eq_refl eq_refl ltac:(constructor))
      as (_ & Hdo & _).
    apply Hdo; reflexivity.
Defined.

(** ** A failed body read *)

(** C9: when the body read fails (the page was requested and the HTTP
    exchange succeeded), Error is the read error, and LookupTook,
    HTTPConnectionTook and IP are what they were before the read: the
    measured times and the resolved address, the same as in the outcome
    of the probe that does not read the body. *)
Theorem read_failure_keeps_fields malformed dns e name client resolver
    took answers a ctook resp err :
  Exchange e resolver (query name) dns = (took, inr answers) ->
  firstARecord answers = Some a ->
  NewRequest e "GET" (urlOf (IPString a)) = None ->
  Do e client (requestOf (IPString a) name) = (ctook, inr resp) ->
  BodyErr resp = Some err ->
  let r := fst (processName malformed dns e name client resolver true) in
  let before := fst (processName malformed dns e name client resolver false) in
  Error r = err
  /\ LookupTook r = took /\ HTTPConnectionTook r = ctook /\ IP r = IPString a
  /\ LookupTook r = LookupTook before
  /\ HTTPConnectionTook r = HTTPConnectionTook before
  /\ IP r = IP before.
Proof.
  intros Hx Hfirst Hreq Hdo Hread r before. unfold r, before.
  rewrite !(probe_resolved _ _ _ _ _ _ _ _ _ _ Hx Hfirst), Hreq, Hdo, Hread.
  cbn. repeat split; reflexivity.
Qed.

Lemma read_failure_keeps_fields_witness :
  let r := fst (processName "Malformed DNS response" "8.8.8.8:53" envReadFails "example.com"
                  sampleClient sampleResolver true) in
  Error r = "unexpected EOF" /\ LookupTook r = 5%Z /\ HTTPConnectionTook r = 7%Z
  /\ IP r = IPString exampleAddr.
Proof.
  destruct (read_failure_keeps_fields "Malformed DNS response" "8.8.8.8:53" envReadFails
              "example.com" sampleClient sampleResolver
              5%Z [RR_A exampleAddr] exampleAddr 7%Z
              (mkResponse "<html" (Some "unexpected EOF")) "unexpected EOF"
              eq_refl eq_refl eq_refl eq_refl eq_refl)
    as (H1 & H2 & H3 & H4 & _).
  repeat split; assumption.
Defined.

(** ** The proxy identity factory *)

(** C8: [newDialer] reads 16 bytes from the random device, prints them
    in hexadecimal (32 digits) and returns a SOCKS5 dialer for
    [127.0.0.1:9150] over tcp whose user and password are both that
    string, with a dial timeout of ten seconds; when the device cannot
    deliver 16 bytes, or when the dialer constructor reports an error,
    the call panics. *)
Theorem newDialer_spec (dev : list byte) :
  let randStr := sprintfX (take 16 dev) in
  (16 <= length dev ->
   newDialer dev
   = Ok (mkDialer "tcp" "127.0.0.1:9150" (Some (mkAuth randStr randStr)) (10 * Second),
         drop 16 dev)
   /\ String.length randStr = 32)
  /\ (length dev < 16 -> forall socks5, exists m, newDialerWith socks5 dev = Panic m)
  /\ (forall (socks5 : string -> string -> option Auth -> Z -> string + Dialer) err,
        16 <= length dev ->
        socks5 "tcp" "127.0.0.1:9150" (Some (mkAuth randStr randStr)) (10 * Second)%Z = inl err ->
        newDialerWith socks5 dev = Panic err).
Proof.
  intros randStr. unfold newDialer, newDialerWith, randomString, randRead.
  repeat apply conj.
  - intros Hlen. apply Nat.leb_le in Hlen as Hb. rewrite Hb. cbn [SOCKS5].
    split; [reflexivity |].
    unfold randStr. rewrite sprintfX_length, length_take. lia.
  - intros Hlen socks5. apply Nat.leb_gt in Hlen. rewrite Hlen. eexists. reflexivity.
  - intros socks5 err Hlen Hs. apply Nat.leb_le in Hlen. rewrite Hlen.
    fold randStr. rewrite Hs. reflexivity.
Qed.

Lemma newDialer_spec_witness :
  newDialer dev16
  = Ok (mkDialer "tcp" "127.0.0.1:9150"
          (Some (mkAuth "41414141414141414141414141414141" "41414141414141414141414141414141"))
          10000000000, [])
  /\ exists m, newDialer (take 15 dev16) = Panic m.
Proof.
  split.
  - destruct (newDialer_spec dev16) as (H & _ & _).
    destruct (H ltac:(vm_compute; lia)) as [E _]. exact E.
  - destruct (newDialer_spec (take 15 dev16)) as (_ & H & _).
    exact (H ltac:(vm_compute; lia) SOCKS5).
Defined.

(** ** Loading the names *)

Lemma Split_nonempty (s : string) : Split s <> [].
Proof.
  destruct s as [|c rest]; simpl; [discriminate |].
  destruct (Ascii.eqb c "010"%char); [discriminate |].
  destruct (Split rest); discriminate.
Qed.

Lemma Split_length (s : string) : length (Split s) = S (countNewlines s).
Proof.
  induction s as [|c rest IH]; simpl; [reflexivity |].
  destruct (Ascii.eqb c "010"%char); simpl; [rewrite IH; reflexivity |].
  destruct (Split rest) as [|piece pieces] eqn:E; [discriminate IH | exact IH].
Qed.

Lemma joinLines_Split (s : string) : joinLines (Split s) = s.
Proof.
  induction s as [|c rest IH]; [reflexivity |].
  cbn [Split]. destruct (Ascii.eqb c "010"%char) eqn:Ec.
  - apply Ascii.eqb_eq in Ec as ->.
    pose proof (Split_nonempty rest) as Hne.
    destruct (Split rest) as [|piece pieces]; [congruence |].
    cbn [joinLines] in *. rewrite IH. reflexivity.
  - destruct (Split rest) as [|piece pieces] eqn:E.
    { exfalso. exact (Split_nonempty rest E). }
    destruct pieces as [|p2 ps]; cbn [joinLines] in *; rewrite <- IH; reflexivity.
Qed.

Lemma enqueue_fits (l b : list string) (c : nat) :
  length b + length l <= c ->
  enqueue l (mkChan b c false) = Some (mkChan (b ++ l) c false).
Proof.
  unfold enqueue. revert b. induction l as [|n l IH]; intros b Hlen; cbn [fold_left].
  - rewrite app_nil_r. reflexivity.
  - unfold send at 2. cbn [closed buf cap].
    cbn [length] in Hlen.
    replace (Nat.ltb (length b) c) with true by (symmetry; apply Nat.ltb_lt; lia).
    rewrite IH by (rewrite length_app; cbn [length]; lia).
    rewrite <- app_assoc. reflexivity.
Qed.

Lemma boot_spec (file : string) (dev : list byte) :
  boot file dev
  = Some {| names := mkChan (Split file) (length (Split file)) true;
            results := mkChan [] (length (Split file)) false;
            runWg := 0; pool := []; mainPC := MSpawn 0;
            device := dev; stdout := []; torDialers := []; panicked := None |}.
Proof.
  unfold boot, makeChan. rewrite enqueue_fits by (cbn [length]; lia). reflexivity.
Qed.

(** C10: the names file is split at its newline bytes and nothing is
    filtered or trimmed: a file with k newlines gives k+1 pieces, which
    joined by newlines are the file again (so the piece after a
    trailing newline is the empty string); all of them are on the names
    channel, in order, when it is closed; and a worker that takes a
    name from the channel starts [process] on it whatever it is. *)
Theorem names_are_split_not_filtered (file : string) (dev : list byte) :
  length (Split file) = S (countNewlines file)
  /\ joinLines (Split file) = file
  /\ (exists s0, boot file dev = Some s0
                 /\ buf (names s0) = Split file /\ closed (names s0) = true)
  /\ (forall t workers s w name ch,
        panicked s = None ->
        pool s !! w = Some WRange ->
        recv (names s) = Received name ch ->
        step t workers (AWorker w) s
        = Some (setWorker w
                  (WProcess (mkFrame name 2 (mkResult name None None) GRunning None PSetup))
                  (withNames ch s))).
Proof.
  repeat apply conj.
  - apply Split_length.
  - apply joinLines_Split.
  - eexists. split; [apply boot_spec |]. split; reflexivity.
  - intros t workers s w name ch Hp Hw Hrecv.
    unfold step, stepWorker. rewrite Hp, Hw, Hrecv. reflexivity.
Qed.

Lemma names_are_split_not_filtered_witness :
  Split sampleFile = ["example.com"; "example.org"; ""]
  /\ exists s0 s1 s2,
       boot sampleFile [] = Some s0
       /\ exec (blockTester "8.8.8.8:53") 3 [AMain; AMain; AMain; AWorker 0; AWorker 1] s0
          = Some s1
       /\ step (blockTester "8.8.8.8:53") 3 (AWorker 2) s1 = Some s2
       /\ pool s2 !! 2
          = Some (WProcess (mkFrame "" 2 (mkResult "" None None) GRunning None PSetup)).
Proof.
  split; [reflexivity |].
  eexists _, _, _. split; [reflexivity |]. split; [vm_compute; reflexivity |].
  split.
  - destruct (names_are_split_not_filtered sampleFile []) as (_ & _ & _ & H).
    apply H; reflexivity.
  - vm_compute; reflexivity.
Defined.

(** ** Runs of the machine *)

Section Runs.

Variable t : tester.
Variable workers : Z.

Lemma exec_app (l1 l2 : list Action) (s : State) :
  exec t workers (l1 ++ l2) s
  = match exec t workers l1 s with
    | Some s' => exec t workers l2 s'
    | None => None
    end.
Proof.
  revert s. induction l1 as [|a l1 IH]; intros s; cbn [exec app]; [reflexivity |].
  destruct (step t workers a s); [apply IH | reflexivity].
Qed.

(** A property of the booted state that every step preserves holds in
    every reachable state. *)
Lemma reachable_ind (P : State -> Prop) (file : string) (dev : list byte) :
  (forall s0, boot file dev = Some s0 -> P s0) ->
  (forall a s s', P s -> step t workers a s = Some s' -> P s') ->
  forall s, reachable t workers file dev s -> P s.
Proof.
  intros Hboot Hstep s (s0 & sched & Hs0 & Hexec).
  specialize (Hboot s0 Hs0). clear Hs0. revert s0 Hboot Hexec.
  induction sched as [|a sched IH]; intros s0 Hboot Hexec; cbn [exec] in Hexec.
  - injection Hexec as <-. exact Hboot.
  - destruct (step t workers a s0) as [s1|] eqn:Hs1; [| discriminate].
    exact (IH s1 (Hstep a s0 s1 Hboot Hs1) Hexec).
Qed.

Lemma reachable_step (file : string) (dev : list byte) (a : Action) (s s' : State) :
  reachable t workers file dev s -> step t workers a s = Some s' ->
  reachable t workers file dev s'.
Proof.
  intros (s0 & sched & Hs0 & Hexec) Hstep.
  exists s0, (sched ++ [a]). split; [exact Hs0 |].
  rewrite exec_app, Hexec. cbn [exec]. rewrite Hstep. reflexivity.
Qed.

End Runs.

(** Case analysis on a step that was taken. *)
Ltac step_inv H :=
  unfold step in H;
  match type of H with
  | match panicked ?s with _ => _ end = _ =>
      let Hp := fresh "Hpanic" in
      destruct (panicked s) eqn:Hp; [discriminate H |]
  end;
  match type of H with
  | match ?a with _ => _ end = _ => destruct a
  end;
  unfold stepMain, stepWorker, startTor, stepPlainReturns, stepPlainStores,
    stepTorReturns, stepTorStores in H;
  repeat match type of H with
         | context [match ?x with _ => _ end] => destruct x eqn:?
         end;
  simplify_eq.

Lemma send_Some {A} (x : A) (ch ch' : Chan A) :
  send x ch = Some ch' ->
  buf ch' = buf ch ++ [x] /\ cap ch' = cap ch /\ closed ch' = closed ch
  /\ length (buf ch) < cap ch.
Proof.
  unfold send. destruct (closed ch) eqn:Ec; [discriminate |].
  destruct (Nat.ltb (length (buf ch)) (cap ch)) eqn:El; [| discriminate].
  intros H. injection H as <-. apply Nat.ltb_lt in El. cbn. auto.
Qed.

Lemma recv_Received {A} (x : A) (ch ch' : Chan A) :
  recv ch = Received x ch' ->
  buf ch = x :: buf ch' /\ cap ch' = cap ch /\ closed ch' = closed ch.
Proof.
  unfold recv. destruct (buf ch) as [|y rest] eqn:Eb.
  - destruct (closed ch); discriminate.
  - intros H. injection H as <- <-. cbn. auto.
Qed.

Lemma recv_Drained {A} (ch : Chan A) :
  recv ch = Drained <-> buf ch = [] /\ closed ch = true.
Proof.
  unfold recv. destruct (buf ch) as [|y rest]; [| split; [discriminate | intros [? _]; discriminate]].
  destruct (closed ch); split; try discriminate; auto. intros [_ ?]; discriminate.
Qed.

Lemma recv_Blocked {A} (ch : Chan A) :
  recv ch = Blocked <-> buf ch = [] /\ closed ch = false.
Proof.
  unfold recv. destruct (buf ch) as [|y rest]; [| split; [discriminate | intros [? _]; discriminate]].
  destruct (closed ch); split; try discriminate; auto. intros [_ ?]; discriminate.
Qed.

(** ** The collection loop *)

Lemma results_stay_open_step t workers a s s' :
  step t workers a s = Some s' ->
  closed (results s) = false /\ (forall acc, mainPC s <> MEncode acc) ->
  closed (results s') = false /\ (forall acc, mainPC s' <> MEncode acc).
Proof.
  intros H [Hc Hm]. step_inv H; cbn; try (split; [assumption | try assumption; try discriminate]).
  all: repeat match goal with
         | E : recv _ = Received _ _ |- _ => apply recv_Received in E; destruct E as (? & ? & ?)
         | E : recv (results _) = Drained |- _ => apply recv_Drained in E; destruct E as (? & ?)
         | E : send _ _ = Some _ |- _ => apply send_Some in E; destruct E as (? & ? & ? & ?)
         end;
       try congruence.
  all: try (split; [congruence | first [assumption | discriminate | congruence]]).
Qed.

(** C1: the results channel is never closed, so [main] never leaves the
    loop over it: in no state of any run, whatever the names file, the
    worker count and the schedule, has [main] reached the encoding of
    the results. *)
Theorem collection_loop_never_ends t workers file dev s :
  reachable t workers file dev s ->
  closed (results s) = false /\ forall acc, mainPC s <> MEncode acc.
Proof.
  revert s. apply reachable_ind.
  - intros s0. rewrite boot_spec. intros H. injection H as <-. cbn.
    split; [reflexivity | discriminate].
  - intros a s s' Hs Hstep. exact (results_stay_open_step _ _ _ _ _ Hstep Hs).
Qed.

(** The run on one name with one worker: the worker returns, [main]
    collects the one result, and then nothing can move. *)
Lemma one_name_run_deadlocks :
  exists s0 s r,
    boot "example.com" dev16 = Some s0
    /\ exec (blockTester "8.8.8.8:53") 1 scheduleOneName s0 = Some s
    /\ pool s = [WReturned] /\ mainPC s = MCollect [r]
    /\ buf (results s) = [] /\ panicked s = None
    /\ stuck (blockTester "8.8.8.8:53") 1 s.
Proof.
  eexists _, _, _. split; [reflexivity |]. split; [vm_compute; reflexivity |].
  repeat split.
  intros a. destruct a as [|w|w e|w|w e|w]; try reflexivity;
    destruct w as [|w]; vm_compute; reflexivity.
Qed.

Lemma collection_loop_never_ends_witness :
  exists s0 s,
    boot "example.com" dev16 = Some s0
    /\ exec (blockTester "8.8.8.8:53") 1 scheduleOneName s0 = Some s
    /\ closed (results s) = false /\ forall acc, mainPC s <> MEncode acc.
Proof.
  eexists _, _. split; [reflexivity |]. split; [vm_compute; reflexivity |].
  apply (collection_loop_never_ends (blockTester "8.8.8.8:53") 1 "example.com" dev16).
  eexists _, scheduleOneName. split; [reflexivity | vm_compute; reflexivity].
Defined.

(** ** The join in [process] *)

(** C7: the worker can pass [wg.Wait()] before the probe goroutines
    have stored their outcomes, because [processName] signals
    [wg.Done()] when it returns and the store happens after that.  On
    one name with one worker there is a schedule in which the status
    line dereferences a nil [r.Tor], and one in which the result is
    sent with a nil [Plain]. *)
Theorem process_can_pass_wait_before_stores :
  (exists s0 s,
     boot "example.com" dev16 = Some s0
     /\ exec (blockTester "8.8.8.8:53") 1 scheduleNilTor s0 = Some s
     /\ panicked s = Some nilDeref)
  /\ (exists s0 s r,
        boot "example.com" dev16 = Some s0
        /\ exec (blockTester "8.8.8.8:53") 1 scheduleNilPlain s0 = Some s
        /\ panicked s = None
        /\ buf (results s) = [r] /\ Name r = "example.com" /\ Plain r = None).
Proof.
  split.
  - eexists _, _. split; [reflexivity |]. split; [vm_compute; reflexivity | reflexivity].
  - eexists _, _, _. split; [reflexivity |]. split; [vm_compute; reflexivity |].
    repeat split.
Qed.

(** ** Page capture *)

Lemma pool_frame t s w f :
  Forall (workerOK t) (pool s) -> pool s !! w = Some (WProcess f) -> frameOK t f.
Proof.
  intros Hall Hw. rewrite Forall_lookup in Hall. exact (Hall w _ Hw).
Qed.

Lemma stateOK_step t workers a s s' :
  stateOK t s -> step t workers a s = Some s' -> stateOK t s'.
Proof.
  intros (Hp & Hr & Hc) H. unfold stateOK.
  step_inv H; unfold collected in *; cbn [pool results mainPC setWorker withPool withMainPC withRunWg withNames
                   withResults withStdout withTorDialers withDevice withPanic] in *.
  all: repeat match goal with
         | E : recv _ = Received _ _ |- _ => apply recv_Received in E; destruct E as (? & ? & ?)
         | E : send _ _ = Some _ |- _ => apply send_Some in E; destruct E as (? & ? & ? & ?)
         | E : pool _ !! _ = Some (WProcess _) |- _ => apply (pool_frame _ _ _ _ Hp) in E
         end.
  all: repeat match goal with
         | E : mainPC _ = _ |- _ => rewrite E in *
         | E : buf _ = _ |- _ => rewrite E in *
         end.
  all: split_and!; try assumption; try (apply Forall_insert; [assumption |]).
  all: try (apply Forall_app; split; [assumption |]).
  all: try (apply Forall_nil; exact I).
  all: try (repeat constructor; fail).
  all: try (inversion Hr; subst; assumption).
  all: try (apply Forall_singleton; inversion Hr; subst; assumption).
  all: try match goal with
         | Hf : frameOK _ _ |- _ =>
             destruct Hf as (Hn & [Hpl Htr] & Hgp & Hgt)
         end.
  all: try (apply Forall_singleton; split; assumption).
  all: unfold workerOK, frameOK, resultOK, plainOutcome, torOutcome in *; cbn.
  all: try (split_and!; try done; intros; simplify_eq; try rewrite Hn; eauto; fail).
Qed.

Lemma reachable_stateOK t workers file dev s :
  reachable t workers file dev s -> stateOK t s.
Proof.
  revert s. apply reachable_ind.
  - intros s0. rewrite boot_spec. intros H. injection H as <-.
    repeat split; constructor.
  - intros a s s' Hs Hstep. exact (stateOK_step _ _ _ _ _ Hs Hstep).
Qed.





(** ** One proxy identity per tor probe *)

Lemma newDialer_Ok dev p dev' :
  newDialer dev = Ok (p, dev') ->
  16 <= length dev /\ p = identity (take 16 dev) /\ dev' = drop 16 dev.
Proof.
  unfold newDialer, newDialerWith, randomString, randRead.
  destruct (Nat.leb 16 (length dev)) eqn:E; [| discriminate].
  cbn [SOCKS5]. intros H. injection H as <- <-. apply Nat.leb_le in E.
  repeat split. exact E.
Qed.

Lemma freshLog_step t workers dev0 a s s' :
  tor t = PerName ->
  freshLog dev0 s -> step t workers a s = Some s' -> freshLog dev0 s'.
Proof.
  intros Ht (Hdev & Hlen & Hlog) H. unfold freshLog.
  step_inv H; cbn [device torDialers setWorker withPool withMainPC withRunWg withNames
                   withResults withStdout withTorDialers withDevice withPanic];
    try (split_and!; assumption).
  match goal with
  | E : newDialer _ = Ok _ |- _ => apply newDialer_Ok in E; destruct E as (Hb & -> & ->)
  end.
  rewrite Hdev in Hb. rewrite length_drop in Hb.
  rewrite length_app. cbn [length]. split_and!.
  - rewrite Hdev, drop_drop. f_equal. lia.
  - lia.
  - intros i n d Hi. destruct (decide (i < length (torDialers s))) as [Hlt|Hge].
    + rewrite lookup_app_l in Hi by exact Hlt. exact (Hlog i n d Hi).
    + rewrite lookup_app_r in Hi by lia.
      destruct (i - length (torDialers s)) as [|k] eqn:Ek; [| destruct k; discriminate Hi].
      cbn in Hi. injection Hi as <- <-. unfold block.
      replace i with (length (torDialers s)) by lia. rewrite Hdev. reflexivity.
Qed.

Lemma reachable_freshLog dnsAddr workers file dev s :
  reachable (blockTester dnsAddr) workers file dev s -> freshLog dev s.
Proof.
  revert s. apply reachable_ind.
  - intros s0. rewrite boot_spec. intros H. injection H as <-.
    unfold freshLog. cbn. split_and!; [reflexivity | lia |].
    intros i n d Hi. destruct i; discriminate Hi.
  - intros a s s' Hs Hstep. exact (freshLog_step (blockTester dnsAddr) _ _ _ _ _ eq_refl Hs Hstep).
Qed.

Lemma identity_inj (b1 b2 : list byte) : identity b1 = identity b2 -> b1 = b2.
Proof.
  unfold identity. intros H. apply sprintfX_inj. congruence.
Qed.

(** C4, as the specification words it, fails.  In the earlier variant the tor
    probes of two names use the one dialer that [main] built, which
    carries no generated credentials; in block-tester.go the tor probes
    of two names use the same credentials when the random device
    delivers the same 16 bytes twice. *)
Lemma two_probes_can_share_an_identity :
  (exists t s0 s d,
     earlierTester defaultProxyURI "8.8.8.8:53" = inr t
     /\ boot fileAB [] = Some s0
     /\ exec t 5 scheduleTwoProbesOfFive s0 = Some s
     /\ torDialers s = [("a", Some d); ("b", Some d)]
     /\ dAuth d = None)
  /\ (exists s0 s d,
        boot fileAB devRepeating = Some s0
        /\ exec (blockTester "8.8.8.8:53") 2 scheduleTwoProbes s0 = Some s
        /\ torDialers s = [("a", Some d); ("b", Some d)]).
Proof.
  split.
  - eexists _, _, _, _. split; [reflexivity |]. split; [reflexivity |].
    split; [vm_compute; reflexivity |]. split; reflexivity.
  - eexists _, _, _. split; [reflexivity |].
    split; [vm_compute; reflexivity |]. reflexivity.
Qed.

(** C4 (amended): in block-tester.go every invocation of [process]
    builds the dialer of its tor probe itself, from the next 16 bytes
    of the random device: the i-th tor probe of a run uses the dialer
    whose user and password are the hexadecimal print of the i-th
    block.  Two tor probes therefore use the same dialer exactly when
    the device delivered the same 16 bytes to both, and distinct blocks
    give distinct credential pairs. *)
Theorem fresh_identity_per_probe dnsAddr workers file dev s i j n1 d1 n2 d2 :
  reachable (blockTester dnsAddr) workers file dev s ->
  torDialers s !! i = Some (n1, d1) ->
  torDialers s !! j = Some (n2, d2) ->
  d1 = Some (identity (block i dev))
  /\ d2 = Some (identity (block j dev))
  /\ (d1 = d2 <-> block i dev = block j dev)
  /\ (block i dev <> block j dev ->
      forall x y, d1 = Some x -> d2 = Some y -> dAuth x <> dAuth y).
Proof.
  intros Hreach Hi Hj.
  destruct (reachable_freshLog _ _ _ _ _ Hreach) as (_ & _ & Hlog).
  rewrite (Hlog i n1 d1 Hi), (Hlog j n2 d2 Hj).
  split; [reflexivity |]. split; [reflexivity |]. split.
  - split.
    + intros H. apply identity_inj. congruence.
    + intros ->. reflexivity.
  - intros Hne x y Hx Hy Hauth. injection Hx as <-. injection Hy as <-.
    unfold identity in Hauth. cbn [dAuth] in Hauth.
    apply Hne, sprintfX_inj. congruence.
Qed.

Lemma fresh_identity_per_probe_witness :
  exists s0 s d1 d2,
    boot fileAB devTwoBlocks = Some s0
    /\ exec (blockTester "8.8.8.8:53") 2 scheduleTwoProbes s0 = Some s
    /\ torDialers s = [("a", d1); ("b", d2)]
    /\ d1 = Some (identity (block 0 devTwoBlocks))
    /\ d2 = Some (identity (block 1 devTwoBlocks))
    /\ d1 <> d2.
Proof.
  eexists _, _, _, _. split; [reflexivity |]. split; [vm_compute; reflexivity |].
  split; [reflexivity |].
  assert (T : forall s d1 d2,
             reachable (blockTester "8.8.8.8:53") 2 fileAB devTwoBlocks s ->
             torDialers s = [("a", d1); ("b", d2)] ->
             d1 = Some (identity (block 0 devTwoBlocks))
             /\ d2 = Some (identity (block 1 devTwoBlocks)) /\ d1 <> d2).
  { intros s d1 d2 R E.
    destruct (fresh_identity_per_probe "8.8.8.8:53" 2 fileAB devTwoBlocks s 0 1
                "a" d1 "b" d2 R) as (H1 & H2 & H3 & _); [rewrite E; reflexivity .. |].
    split; [exact H1 |]. split; [exact H2 |].
    intros Ed. apply H3 in Ed. vm_compute in Ed. discriminate Ed. }
  eapply T.
  - eexists _, scheduleTwoProbes. split; [reflexivity | vm_compute; reflexivity].
  - reflexivity.
Defined.

(** ** The dispatcher: every run comes to rest, and where *)

Lemma sumOver_cons f x l : sumOver f (x :: l) = f x + sumOver f l.
Proof. reflexivity. Qed.

Lemma sumOver_app f l1 l2 : sumOver f (l1 ++ l2) = sumOver f l1 + sumOver f l2.
Proof.
  induction l1 as [|x l1 IH]; [reflexivity |].
  change ((x :: l1) ++ l2) with (x :: (l1 ++ l2)). rewrite !sumOver_cons, IH. lia.
Qed.

Lemma sumOver_insert f (l : list Worker) w old x :
  l !! w = Some old -> sumOver f (<[w:=x]> l) + f old = sumOver f l + f x.
Proof.
  revert w. induction l as [|y l IH]; intros [|w] H; try discriminate H.
  - injection H as ->. change (<[0:=x]> (old :: l)) with (x :: l).
    rewrite !sumOver_cons. lia.
  - change (l !! w = Some old) in H. specialize (IH w H).
    change (<[S w:=x]> (y :: l)) with (y :: <[w:=x]> l).
    rewrite !sumOver_cons. lia.
Qed.

Lemma sumOver_zero f (l : list Worker) w x :
  sumOver f l = 0 -> l !! w = Some x -> f x = 0.
Proof.
  revert w. induction l as [|y l IH]; intros [|w] H0 H; try discriminate H;
    rewrite sumOver_cons in H0.
  - injection H as ->. lia.
  - change (l !! w = Some x) in H. apply (IH w); [lia | exact H].
Qed.

Lemma stepsLeft_step t workers a s s' :
  step t workers a s = Some s' -> stepsLeft workers s' < stepsLeft workers s.
Proof.
  intros H. unfold stepsLeft.
  step_inv H; cbn [panicked pool results names mainPC setWorker withPool withMainPC withRunWg
                   withNames withResults withStdout withTorDialers withDevice withPanic];
    rewrite ?Hpanic.
  all: try lia.
  all: repeat match goal with
         | E : recv _ = Received _ _ |- _ => apply recv_Received in E; destruct E as (? & ? & ?)
         | E : send _ _ = Some _ |- _ => apply send_Some in E; destruct E as (? & ? & ? & ?)
         | E : pool ?s !! ?w = Some ?old |- context [<[?w:=?x]> (pool ?s)] =>
             pose proof (sumOver_insert workerSteps _ _ _ x E); clear E
         end.
  all: repeat match goal with
         | E : mainPC _ = _ |- _ => rewrite E
         | E : buf _ = _ |- _ => rewrite E
         end.
  all: rewrite ?sumOver_app, ?length_app in *;
       cbn [sumOver foldr workerSteps mainSteps goSteps length
            fPC fPlain fTor withPC withTor withWg withPlain withR] in *.
  all: repeat match goal with
         | E : fPC _ = _ |- _ => rewrite E in *
         | E : fPlain _ = _ |- _ => rewrite E in *
         | E : fTor _ = _ |- _ => rewrite E in *
         end; cbn [goSteps] in *.
  all: try lia.
  all: destruct (fTor f) as [[[? ?] ?]|]; lia.
Qed.

Lemma exec_length t workers sched s s' :
  exec t workers sched s = Some s' ->
  length sched + stepsLeft workers s' <= stepsLeft workers s.
Proof.
  revert s. induction sched as [|a sched IH]; intros s H; cbn [exec] in H.
  - injection H as <-. cbn [length]. lia.
  - destruct (step t workers a s) as [s1|] eqn:Hs1; [| discriminate H].
    pose proof (stepsLeft_step _ _ _ _ _ Hs1). specialize (IH s1 H). cbn [length]. lia.
Qed.

(** X19: every run is finite: a schedule that the machine follows from
    the booted state has at most [2 W + 10 N + 4] steps. *)
Lemma runs_are_bounded t workers file dev s0 sched s :
  boot file dev = Some s0 ->
  exec t workers sched s0 = Some s ->
  length sched <= 2 * Z.to_nat workers + 10 * length (Split file) + 4.
Proof.
  rewrite boot_spec. intros H Hexec. injection H as <-.
  apply exec_length in Hexec. unfold stepsLeft at 2 in Hexec. cbn in Hexec.
  rewrite Z.sub_0_r in Hexec. lia.
Qed.

Lemma In_insert_Returned (l : list Worker) w x :
  In WReturned (<[w:=x]> l) -> x = WReturned \/ In WReturned l.
Proof.
  revert w. induction l as [|y l IH]; intros [|w] H; try (right; exact H).
  - change (<[0:=x]> (y :: l)) with (x :: l) in H. destruct H as [->|H]; [left; reflexivity |].
    right. right. exact H.
  - change (<[S w:=x]> (y :: l)) with (y :: <[w:=x]> l) in H. destruct H as [->|H].
    + right. left. reflexivity.
    + destruct (IH w H) as [->|Hin]; [left; reflexivity | right; right; exact Hin].
Qed.

Lemma counts_step t workers n a s s' :
  counts workers n s -> step t workers a s = Some s' -> counts workers n s'.
Proof.
  intros (Hnc & Hcap & Hrc & Hsum & Hwg & Hfr & Hret & Hmain) H.
  unfold counts, mainCounts, collected in *.
  step_inv H; cbn [panicked pool results names mainPC runWg setWorker withPool withMainPC
                   withRunWg withNames withResults withStdout withTorDialers withDevice
                   withPanic] in *.
  all: repeat match goal with
         | E : recv _ = Received _ _ |- _ => apply recv_Received in E; destruct E as (? & ? & ?)
         | E : recv _ = Drained |- _ => apply recv_Drained in E; destruct E as (? & ?)
         | E : send _ _ = Some _ |- _ => apply send_Some in E; destruct E as (? & ? & ? & ?)
         | E : wgDone _ = Some _ |- _ => unfold wgDone in E
         end.
  all: repeat match goal with
         | E : pool ?s !! ?w = Some ?old |- context [<[?w:=?x]> (pool ?s)] =>
             pose proof (sumOver_insert inProcess _ _ _ x E);
             pose proof (sumOver_insert alive _ _ _ x E);
             pose proof (proj1 (Forall_lookup _ _) Hfr _ _ E);
             apply list_elem_of_lookup_2, list_elem_of_In in E
         end.
  all: try match goal with
         | E : match runWg ?s with 0 => None | S _ => _ end = Some _ |- _ =>
             destruct (runWg s) eqn:?; [discriminate E | injection E as <-]
         | E : match fWg ?f with 0 => None | S _ => _ end = Some _ |- _ =>
             destruct (fWg f) eqn:?; [discriminate E | injection E as <-]
         end.
  all: repeat match goal with
         | E : buf _ = _ |- _ => rewrite E in *
         end.
  all: rewrite ?sumOver_app, ?length_app, ?length_insert in *;
       cbn [sumOver foldr inProcess alive length] in *.
  all: split_and!; try congruence; try lia; try assumption.
  all: try match goal with
         | |- match mainPC ?s with _ => _ end =>
             destruct (mainPC s); try assumption; destruct Hmain; split; lia
         end.
  all: try match goal with
         | |- In WReturned (_ ++ [WRange]) -> _ =>
             let Hin := fresh in
             intros Hin; apply in_app_or in Hin; destruct Hin as [Hin|[Hin|[]]];
             [exact (Hret Hin) | discriminate Hin]
         | |- In WReturned (<[_:=_]> _) -> _ =>
             let Hin := fresh in
             intros Hin; apply In_insert_Returned in Hin; destruct Hin as [Hin|Hin];
             [try discriminate Hin; assumption | apply Hret in Hin; congruence]
         end.
  all: try (apply Forall_app; split; [assumption | repeat constructor]).
  all: try (apply Forall_insert; [assumption |]).
  all: cbn [frameCounts fWg fPC fTor fPlain withPC withTor withWg withPlain withR] in *.
  all: try exact I.
  all: unfold pending in *;
       cbn [frameCounts fWg fPC fTor fPlain withPC withTor withWg withPlain withR running] in *.
  all: repeat match goal with
         | E : fPC _ = _ |- _ => rewrite E in *
         | E : fPlain _ = _ |- _ => rewrite E in *
         | E : fTor _ = _ |- _ => rewrite E in *
         | E : fWg _ = _ |- _ => rewrite E in *
         | H : _ /\ _ |- _ => destruct H
         end; cbn [running] in *.
  all: try (split; [lia | split; congruence]).
  all: try (split; [lia | assumption]).
  all: try match goal with
         | Hiff : PSetup = PSetup <-> fTor ?f = None |- _ =>
             rewrite (proj1 Hiff eq_refl) in *
         end.
  all: try (destruct (fTor f) as [[[? ?] ?]|] eqn:?; cbn [running] in *;
            split; [lia | split; intros; first [congruence | exfalso; intuition congruence]]).
  all: try (split; [lia | split; intros; first [congruence | exfalso; intuition congruence]]).
Qed.

Lemma reachable_counts t workers file dev s :
  reachable t workers file dev s -> counts workers (length (Split file)) s.
Proof.
  revert s. apply reachable_ind.
  - intros s0. rewrite boot_spec. intros H. injection H as <-.
    unfold counts, mainCounts, collected. cbn. rewrite Nat.add_0_r.
    split_and!; try reflexivity; try constructor; try lia.
  - intros a s s' Hs Hstep. exact (counts_step _ _ _ _ _ _ Hs Hstep).
Qed.

Lemma sumOver_lookup_le f (l : list Worker) w x :
  l !! w = Some x -> f x <= sumOver f l.
Proof.
  revert w. induction l as [|y l IH]; intros [|w] H; try discriminate H;
    rewrite sumOver_cons.
  - injection H as ->. lia.
  - change (l !! w = Some x) in H. specialize (IH w H). lia.
Qed.

Lemma sumOver_all_zero f (l : list Worker) :
  (forall w x, l !! w = Some x -> f x = 0) -> sumOver f l = 0.
Proof.
  induction l as [|y l IH]; intros H; [reflexivity |].
  rewrite sumOver_cons, (H 0 y eq_refl), IH; [reflexivity |].
  intros w x Hw. exact (H (S w) x Hw).
Qed.

Section Stuck.

Variables (t : tester) (workers : Z) (n : nat) (s : State).
Hypothesis Hcounts : counts workers n s.
Hypothesis Hpanic : panicked s = None.
Hypothesis Hstuck : stuck t workers s.

(** A state in which nothing moves has no worker left in its loop. *)
Lemma stuck_worker_returned w x : pool s !! w = Some x -> x = WReturned.
Proof.
  destruct Hcounts as (Hnc & Hcap & Hrc & Hsum & Hwg & Hfr & Hret & Hmain).
  intros Hw. destruct x as [|f|]; [| | reflexivity]; exfalso.
  - pose proof (Hstuck (AWorker w)) as Hs. unfold step, stepWorker in Hs.
    rewrite Hpanic, Hw in Hs. destruct (recv (names s)) eqn:E; [discriminate Hs | |].
    + destruct (wgDone (runWg s)); discriminate Hs.
    + apply recv_Blocked in E. destruct E as [_ E]. congruence.
  - pose proof (proj1 (Forall_lookup _ _) Hfr _ _ Hw) as [Hwgf Hiff].
    pose proof (Hstuck (AWorker w)) as Hs. unfold step, stepWorker, startTor in Hs.
    rewrite Hpanic, Hw in Hs. destruct (fPC f) eqn:Epc.
    + destruct (tor t); [destruct (newDialer (device s)) as [[? ?]|] |]; discriminate Hs.
    + destruct (fWg f) as [|k] eqn:Ewg; [discriminate Hs |]. unfold pending in Hwgf.
      destruct (fPlain f) eqn:Epl.
      * pose proof (Hstuck (APlainReturns w envOK)) as Hp.
        unfold step, stepPlainReturns in Hp. rewrite Hpanic, Hw, Epl, Ewg in Hp.
        discriminate Hp.
      * destruct (fTor f) as [[[c d] g]|] eqn:Etor;
          [| destruct Hiff as [_ Hiff]; specialize (Hiff eq_refl); discriminate Hiff].
        destruct g; try (cbn in Hwgf; discriminate Hwgf).
        pose proof (Hstuck (ATorReturns w envOK)) as Hp.
        unfold step, stepTorReturns in Hp. rewrite Hpanic, Hw, Etor, Ewg in Hp.
        discriminate Hp.
      * destruct (fTor f) as [[[c d] g]|] eqn:Etor;
          [| destruct Hiff as [_ Hiff]; specialize (Hiff eq_refl); discriminate Hiff].
        destruct g; try (cbn in Hwgf; discriminate Hwgf).
        pose proof (Hstuck (ATorReturns w envOK)) as Hp.
        unfold step, stepTorReturns in Hp. rewrite Hpanic, Hw, Etor, Ewg in Hp.
        discriminate Hp.
    + destruct (Tor (fR f)); discriminate Hs.
    + pose proof (sumOver_lookup_le inProcess _ _ _ Hw) as Hle. cbn [inProcess] in Hle.
      unfold send in Hs. rewrite Hrc in Hs.
      replace (Nat.ltb (length (buf (results s))) (cap (results s))) with true in Hs
        by (symmetry; apply Nat.ltb_lt; lia).
      discriminate Hs.
Qed.

Lemma stuck_after_collecting :
  (1 <= workers)%Z ->
  exists acc,
    mainPC s = MCollect acc /\ length acc = n
    /\ Forall (fun w => w = WReturned) (pool s)
    /\ buf (names s) = [] /\ buf (results s) = [].
Proof.
  intros Hw1.
  pose proof stuck_worker_returned as Hall.
  destruct Hcounts as (Hnc & Hcap & Hrc & Hsum & Hwg & Hfr & Hret & Hmain).
  assert (Halive : sumOver alive (pool s) = 0).
  { apply sumOver_all_zero. intros w x Hx. rewrite (Hall w x Hx). reflexivity. }
  assert (Hproc : sumOver inProcess (pool s) = 0).
  { apply sumOver_all_zero. intros w x Hx. rewrite (Hall w x Hx). reflexivity. }
  pose proof (Hstuck AMain) as Hs. unfold step, stepMain in Hs. rewrite Hpanic in Hs.
  unfold mainCounts in Hmain. unfold collected in Hsum.
  destruct (mainPC s) as [i| |acc|acc] eqn:Epc.
  - destruct (i <? workers)%Z; discriminate Hs.
  - rewrite Hwg, Halive in Hs. discriminate Hs.
  - destruct (recv (results s)) eqn:E; try discriminate Hs.
    apply recv_Blocked in E. destruct E as [Hbuf _].
    destruct Hmain as [Hlen _].
    assert (Hnames : buf (names s) = []).
    { apply Hret. destruct (pool s) as [|x l] eqn:Epool; [cbn in Hlen; lia |].
      rewrite (Hall 0 x eq_refl). left. reflexivity. }
    exists acc. rewrite Hnames, Hbuf, Hproc in Hsum. cbn in Hsum.
    split_and!; try done; try lia.
    apply Forall_lookup. exact Hall.
  - destruct Hmain.
Qed.

End Stuck.

(** X20: a run on N names with at least one worker that has come to
    rest without a panic has all its workers returned, both channels
    empty and exactly N results collected by [main], which is still
    inside the collection loop. *)
Lemma run_at_rest_has_collected_every_result t workers file dev s :
  (1 <= workers)%Z ->
  reachable t workers file dev s ->
  panicked s = None ->
  stuck t workers s ->
  exists acc,
    mainPC s = MCollect acc /\ length acc = length (Split file)
    /\ Forall (fun w => w = WReturned) (pool s)
    /\ buf (names s) = [] /\ buf (results s) = [].
Proof.
  intros Hw Hreach Hpanic Hstuck.
  exact (stuck_after_collecting t workers _ s
           (reachable_counts _ _ _ _ _ Hreach) Hpanic Hstuck Hw).
Qed.

(** * Further properties *)

(** ** The calls of a probe *)

(** X1: every probe starts with one DNS exchange, of the A query for
    the fully qualified name with an EDNS0 buffer of 4096, sent to the
    public resolver address, and makes no other exchange; every HTTP
    request it sends is the GET of [http://IP/] for the IP of the
    outcome, with the name as Host. *)
Theorem probe_exchanges_once malformed dns e name client resolver grabPage :
  let out := processName malformed dns e name client resolver grabPage in
  Question (query name) = Some (Fqdn name, TypeA)
  /\ Edns0 (query name) = Some (4096%Z, true)
  /\ (exists rest,
        snd out = CExchange (query name) dns :: rest
        /\ forall m srv, ~ In (CExchange m srv) rest)
  /\ (forall req, In (CDo req) (snd out) ->
        req = mkRequest "GET" ("http://" +:+ IP (fst out) +:+ "/") name).
Proof.
  intros out.
  pose proof (processName_run malformed dns e name client resolver grabPage) as R.
  fold out in R. split; [reflexivity |]. split; [reflexivity |].
  inversion R as [took err Hx Hr Ht | took Hx Hr Ht | took answers Hx Hne Hf Hr Ht
                 | took answers a err Hx Hf Hreq Hr Ht
                 | took answers a ctook err Hx Hf Hreq Hdo Hr Ht
                 | took answers a ctook resp Hx Hf Hreq Hdo Hr Ht];
    cbn [IP]; (split; [eexists; split; [reflexivity |] |]).
  all: try (intros m srv Hin; cbn in Hin; destruct grabPage; cbn in Hin;
            intuition discriminate).
  all: intros req Hin; cbn in Hin; try (destruct grabPage; cbn in Hin);
       intuition (try discriminate);
       match goal with
       | H : CDo _ = CDo _ |- _ => injection H as <-; reflexivity
       end.
Qed.

Lemma probe_exchanges_once_witness :
  requestOf "93.184.216.34" "example.com"
  = mkRequest "GET"
      ("http://" +:+ IP (fst (processName "Malformed DNS response" "8.8.8.8:53" envOK
                                "example.com" sampleClient sampleResolver true)) +:+ "/")
      "example.com".
Proof.
  apply (proj2 (proj2 (proj2 (probe_exchanges_once "Malformed DNS response" "8.8.8.8:53"
                                envOK "example.com" sampleClient sampleResolver true)))).
  vm_compute. auto 10.
Defined.

Local Ltac probe_runs R :=
  inversion R as [took err Hx Hr Ht | took Hx Hr Ht | took answers Hx Hne Hf Hr Ht
                 | took answers a err Hx Hf Hreq Hr Ht
                 | took answers a ctook err Hx Hf Hreq Hdo Hr Ht
                 | took answers a ctook resp Hx Hf Hreq Hdo Hr Ht].

(** X2: the response body is closed exactly in the probes whose HTTP
    exchange returned a response, as their last call, also when reading
    the body failed; and the body is read only when the page was asked
    for and only of such a response. *)
Theorem probe_closes_body malformed dns e name client resolver grabPage :
  let out := processName malformed dns e name client resolver grabPage in
  let req := requestOf (IP (fst out)) name in
  (In CBodyClose (snd out) <->
   In (CDo req) (snd out) /\ exists ctook resp, Do e client req = (ctook, inr resp))
  /\ (In CBodyClose (snd out) ->
      exists pre, snd out = pre ++ [CBodyClose] /\ ~ In CBodyClose pre)
  /\ (In CReadAll (snd out) -> grabPage = true /\ In CBodyClose (snd out)).
Proof.
  intros out req.
  pose proof (processName_run malformed dns e name client resolver grabPage) as R.
  fold out in R. unfold req. clear req.
  probe_runs R; cbn [IP].
  1-5: split; [split; [intros Hin; exfalso; cbn in Hin; intuition discriminate |] |
               split; intros Hin; exfalso; cbn in Hin; intuition discriminate].
  1-4: intros [Hin _]; exfalso; cbn in Hin; intuition discriminate.
  - intros [_ (c' & r' & Hd)]. congruence.
  - assert (Hlast : In CBodyClose
                      ([CExchange (query name) dns; CNewRequest "GET" (urlOf (IPString a));
                        CDo (requestOf (IPString a) name)]
                         ++ (if grabPage then [CReadAll; CBodyClose] else [CBodyClose])))
      by (destruct grabPage; cbn; auto 10).
    split; [split; [intros _ | intros _; exact Hlast] |].
    + split; [cbn; auto | eauto].
    + split.
      * intros _. destruct grabPage; cbn.
        -- eexists [_; _; _; _]. split; [reflexivity |]. cbn. intuition discriminate.
        -- eexists [_; _; _]. split; [reflexivity |]. cbn. intuition discriminate.
      * intros Hin. split; [| exact Hlast].
        destruct grabPage; [reflexivity | exfalso; cbn in Hin; intuition discriminate].
Qed.

Lemma probe_closes_body_witness :
  In CBodyClose (snd (processName "Malformed DNS response" "8.8.8.8:53" envReadFails
                        "example.com" sampleClient sampleResolver true)).
Proof.
  apply (proj1 (probe_closes_body "Malformed DNS response" "8.8.8.8:53" envReadFails
                  "example.com" sampleClient sampleResolver true)).
  split; [vm_compute; auto 10 |].
  eexists _, _. vm_compute. reflexivity.
Defined.

(** X3: every outcome reports how long the DNS exchange took, whatever
    failed afterwards; its HTTPConnectionTook is the time the HTTP
    exchange took whenever the request was sent, also when the exchange
    failed, and zero in a probe that sent no request. *)
Theorem probe_timings malformed dns e name client resolver grabPage :
  let out := processName malformed dns e name client resolver grabPage in
  LookupTook (fst out) = fst (Exchange e resolver (query name) dns)
  /\ (forall req, In (CDo req) (snd out) ->
        HTTPConnectionTook (fst out) = fst (Do e client req))
  /\ ((forall req, ~ In (CDo req) (snd out)) -> HTTPConnectionTook (fst out) = 0%Z).
Proof.
  intros out.
  pose proof (processName_run malformed dns e name client resolver grabPage) as R.
  fold out in R.
  probe_runs R; rewrite Hx; cbn [fst LookupTook HTTPConnectionTook];
    (split; [reflexivity |]); split.
  all: try (intros req Hin; cbn in Hin; try (destruct grabPage; cbn in Hin);
            intuition (try discriminate);
            match goal with
            | H : CDo _ = CDo _ |- _ => injection H as <-; rewrite Hdo; reflexivity
            end).
  all: try (intros _; reflexivity).
  all: intros Hno; exfalso; apply (Hno (requestOf (IPString a) name)); cbn; auto.
Qed.

Lemma probe_timings_witness :
  HTTPConnectionTook (fst (processName "Malformed DNS response" "8.8.8.8:53" envRefused
                             "example.com" sampleClient sampleResolver false))
  = 2%Z.
Proof.
  apply (proj1 (proj2 (probe_timings "Malformed DNS response" "8.8.8.8:53" envRefused
                         "example.com" sampleClient sampleResolver false))
           (requestOf "93.184.216.34" "example.com")).
  vm_compute. auto 10.
Defined.

(** X4: a non-empty Page occurs only in a probe with page capture whose
    HTTP exchange returned a response, and the Page of such a probe is
    what the read of the body returned, also when that read failed and
    set the Error. *)
Theorem probe_page malformed dns e name client resolver grabPage :
  let out := processName malformed dns e name client resolver grabPage in
  let req := requestOf (IP (fst out)) name in
  (Page (fst out) <> "" ->
   grabPage = true
   /\ exists ctook resp, Do e client req = (ctook, inr resp)
                         /\ In (CDo req) (snd out) /\ Page (fst out) = Body resp)
  /\ (forall ctook resp err,
        grabPage = true -> In (CDo req) (snd out) ->
        Do e client req = (ctook, inr resp) -> BodyErr resp = Some err ->
        Page (fst out) = Body resp /\ Error (fst out) = err).
Proof.
  intros out req.
  pose proof (processName_run malformed dns e name client resolver grabPage) as R.
  fold out in R. unfold req. clear req.
  probe_runs R; cbn [IP Page Error]; split.
  all: try (intros Hpage; exfalso; apply Hpage; reflexivity).
  all: try (intros c' r' e' _ Hin; cbn in Hin; intuition discriminate).
  - intros c' r' e' _ _ Hd. congruence.
  - destruct grabPage; [| intros Hpage; exfalso; apply Hpage; reflexivity].
    intros _. split; [reflexivity |]. exists ctook, resp. cbn. auto 10.
  - intros c' r' e' -> _ Hd Hb. rewrite Hdo in Hd. injection Hd as _ <-.
    rewrite Hb. split; reflexivity.
Qed.

Lemma probe_page_witness :
  let r := fst (processName "Malformed DNS response" "8.8.8.8:53" envReadFails
                  "example.com" sampleClient sampleResolver true) in
  Page r = "<html" /\ Error r = "unexpected EOF".
Proof.
  apply (proj2 (probe_page "Malformed DNS response" "8.8.8.8:53" envReadFails
                  "example.com" sampleClient sampleResolver true)
           7%Z (mkResponse "<html" (Some "unexpected EOF")) "unexpected EOF").
  - reflexivity.
  - vm_compute. auto 10.
  - reflexivity.
  - reflexivity.
Defined.

(** ** The identity string *)

Lemma hexDigit_upper (n : nat) : isUpperHex (hexDigit n) = true.
Proof. do 16 (destruct n as [|n]; [reflexivity |]). reflexivity. Qed.

Lemma sprintfX_upper (b : list byte) :
  forallb isUpperHex (list_ascii_of_string (sprintfX b)) = true.
Proof.
  induction b as [|x b IH]; [reflexivity |].
  cbn [sprintfX list_ascii_of_string forallb]. rewrite !hexDigit_upper, IH. reflexivity.
Qed.

(** X5: [randomString] takes the next 16 bytes of the random device and
    returns 32 characters, each one of [0123456789ABCDEF]; it panics
    when the device cannot deliver 16 bytes; and two calls that return
    the same string have read the same 16 bytes. *)
Theorem randomString_spec (dev : list byte) :
  (16 <= length dev ->
   randomString dev = Ok (sprintfX (take 16 dev), drop 16 dev)
   /\ String.length (sprintfX (take 16 dev)) = 32
   /\ forallb isUpperHex (list_ascii_of_string (sprintfX (take 16 dev))) = true)
  /\ (length dev < 16 -> exists m, randomString dev = Panic m)
  /\ (forall dev' s rest rest',
        randomString dev = Ok (s, rest) -> randomString dev' = Ok (s, rest') ->
        take 16 dev = take 16 dev').
Proof.
  unfold randomString, randRead. repeat apply conj.
  - intros Hlen. apply Nat.leb_le in Hlen as Hb. rewrite Hb.
    split; [reflexivity |]. split; [| apply sprintfX_upper].
    rewrite sprintfX_length, length_take. lia.
  - intros Hlen. apply Nat.leb_gt in Hlen. rewrite Hlen. eexists. reflexivity.
  - intros dev' s rest rest'.
    destruct (Nat.leb 16 (length dev)); [| discriminate].
    destruct (Nat.leb 16 (length dev')); [| discriminate].
    intros H H'. injection H as <- _. injection H' as H' _.
    symmetry. exact (sprintfX_inj _ _ H').
Qed.

Lemma randomString_spec_witness :
  randomString devTwoBlocks
  = Ok ("41414141414141414141414141414141", repeat Byte.x42 16)
  /\ exists m, randomString (take 15 dev16) = Panic m.
Proof.
  split.
  - destruct (randomString_spec devTwoBlocks) as (H & _ & _).
    destruct (H ltac:(vm_compute; lia)) as [E _]. exact E.
  - destruct (randomString_spec (take 15 dev16)) as (_ & H & _).
    exact (H ltac:(vm_compute; lia)).
Defined.

(** ** Where the names are *)

Lemma occurrences_cons (name x : string) (l : list string) :
  occurrences name (x :: l) = (if String.eqb name x then 1 else 0) + occurrences name l.
Proof.
  unfold occurrences. cbn [count_occ].
  destruct (string_dec x name) as [->|Hne].
  - rewrite String.eqb_refl. reflexivity.
  - destruct (String.eqb name x) eqn:E; [| reflexivity].
    apply String.eqb_eq in E. congruence.
Qed.

Lemma occurrences_app (name : string) (l1 l2 : list string) :
  occurrences name (l1 ++ l2) = occurrences name l1 + occurrences name l2.
Proof. apply count_occ_app. Qed.

Lemma accountedFor_step t workers name a s s' :
  stateOK t s -> step t workers a s = Some s' ->
  accountedFor name s' = accountedFor name s.
Proof.
  intros (Hok & _ & _) H. unfold accountedFor, collected.
  step_inv H; cbn [panicked pool results names mainPC runWg setWorker withPool withMainPC
                   withRunWg withNames withResults withStdout withTorDialers withDevice
                   withPanic]; try reflexivity.
  all: repeat match goal with
         | E : recv _ = Received _ _ |- _ => apply recv_Received in E; destruct E as (? & ? & ?)
         | E : send _ _ = Some _ |- _ => apply send_Some in E; destruct E as (? & ? & ? & ?)
         | E : pool ?s !! ?w = Some ?old |- context [<[?w:=?x]> (pool ?s)] =>
             pose proof (sumOver_insert (busyWith name) _ _ _ x E);
             pose proof (proj1 (Forall_lookup _ _) Hok _ _ E);
             clear E
         end.
  all: repeat match goal with
         | E : mainPC _ = _ |- _ => rewrite E
         | E : buf _ = _ |- _ => rewrite E
         end.
  all: rewrite ?sumOver_app, ?map_app, ?occurrences_app; cbn [map];
       rewrite ?occurrences_cons;
       cbn [sumOver foldr busyWith workerOK fName withPC withTor withWg withPlain withR] in *.
  all: try match goal with
         | Hf : frameOK _ _, Hs : sumOver _ _ + _ = _ |- _ =>
             destruct Hf as (Hn & _); rewrite ?Hn in Hs; rewrite ?Hn
         end.
  all: unfold occurrences; cbn [count_occ]; lia.
Qed.

Lemma reachable_accountedFor t workers file dev s name :
  reachable t workers file dev s ->
  accountedFor name s = occurrences name (Split file).
Proof.
  intros Hreach.
  enough (stateOK t s /\ accountedFor name s = occurrences name (Split file)) by tauto.
  revert s Hreach. apply reachable_ind.
  - intros s0 Hs0. split.
    + apply (reachable_stateOK t workers file dev). exists s0, []. split; [exact Hs0 | reflexivity].
    + revert Hs0. rewrite boot_spec. intros H. injection H as <-.
      unfold accountedFor, collected, occurrences.
      cbn [mainPC map buf results names pool sumOver foldr count_occ]. lia.
  - intros a s s' [Hok Hacc] Hstep. split.
    + exact (stateOK_step _ _ _ _ _ Hok Hstep).
    + rewrite (accountedFor_step _ _ _ _ _ _ Hok Hstep). exact Hacc.
Qed.

(** X6: no name is lost or made up.  In every state of every run, each
    name occurs as often among the collected results, the results on
    the channel, the names in process and the names still queued as it
    occurs among the pieces of the names file; in particular every
    result that has been sent carries a name of the file. *)
Theorem names_are_accounted_for t workers file dev s :
  reachable t workers file dev s ->
  (forall name, accountedFor name s = occurrences name (Split file))
  /\ (forall r, emitted s r -> In (Name r) (Split file)).
Proof.
  intros Hreach. split.
  - intros name. exact (reachable_accountedFor _ _ _ _ _ name Hreach).
  - intros r Hem.
    pose proof (reachable_accountedFor _ _ _ _ _ (Name r) Hreach) as Hacc.
    apply (count_occ_In string_dec). fold (occurrences (Name r) (Split file)).
    rewrite <- Hacc. unfold accountedFor.
    destruct Hem as [Hin|Hin].
    + assert (0 < occurrences (Name r) (map Name (buf (results s)))); [| lia].
      apply count_occ_In, in_map, Hin.
    + assert (0 < occurrences (Name r) (map Name (collected s))); [| lia].
      apply count_occ_In, in_map, Hin.
Qed.

Lemma names_are_accounted_for_witness :
  exists s0 s r,
    boot "example.com" dev16 = Some s0
    /\ exec (blockTester "8.8.8.8:53") 1 scheduleOneName s0 = Some s
    /\ collected s = [r]
    /\ accountedFor "example.com" s = 1
    /\ In (Name r) (Split "example.com").
Proof.
  eexists _, _, _. split; [reflexivity |]. split; [vm_compute; reflexivity |].
  split; [reflexivity |].
  assert (T : forall s r,
             reachable (blockTester "8.8.8.8:53") 1 "example.com" dev16 s ->
             collected s = [r] ->
             accountedFor "example.com" s = 1 /\ In (Name r) (Split "example.com")).
  { intros s r R E.
    destruct (names_are_accounted_for _ _ _ _ _ R) as [Hacc Hin].
    split; [rewrite Hacc; reflexivity |].
    apply Hin. right. rewrite E. left. reflexivity. }
  eapply T.
  - eexists _, scheduleOneName. split; [reflexivity | vm_compute; reflexivity].
  - reflexivity.
Defined.

(** X7: at rest every name has its result.  When a run with at least
    one worker has come to rest without a panic, the names of the
    results [main] has collected are the pieces of the names file up to
    order, duplicates included. *)
Theorem collected_names_are_the_input t workers file dev s :
  (1 <= workers)%Z ->
  reachable t workers file dev s ->
  panicked s = None ->
  stuck t workers s ->
  Permutation (map Name (collected s)) (Split file).
Proof.
  intros Hw Hreach Hpanic Hstuck.
  destruct (stuck_after_collecting t workers _ s
              (reachable_counts _ _ _ _ _ Hreach) Hpanic Hstuck Hw)
    as (acc & Hpc & _ & Hall & Hnames & Hres).
  apply (Permutation_count_occ string_dec). intros name.
  pose proof (reachable_accountedFor _ _ _ _ _ name Hreach) as Hacc.
  unfold accountedFor in Hacc. rewrite Hnames, Hres in Hacc. cbn [map] in Hacc.
  assert (Hbusy : sumOver (busyWith name) (pool s) = 0).
  { apply sumOver_all_zero. intros w x Hx.
    rewrite (proj1 (Forall_lookup _ _) Hall w x Hx). reflexivity. }
  rewrite Hbusy in Hacc. unfold occurrences in Hacc. cbn [count_occ] in Hacc. lia.
Qed.

Lemma collected_names_are_the_input_witness :
  exists s0 s,
    boot "example.com" dev16 = Some s0
    /\ exec (blockTester "8.8.8.8:53") 1 scheduleOneName s0 = Some s
    /\ Permutation (map Name (collected s)) (Split "example.com").
Proof.
  destruct one_name_run_deadlocks as (s0 & s & r & Hs0 & Hs & _ & _ & _ & Hp & Hstuck).
  exists s0, s. split; [exact Hs0 |]. split; [exact Hs |].
  apply (collected_names_are_the_input (blockTester "8.8.8.8:53") 1 "example.com" dev16 s).
  - lia.
  - exists s0, scheduleOneName. split; assumption.
  - exact Hp.
  - exact Hstuck.
Defined.

(** ** One worker keeps the order *)

Lemma pool_size_step t workers n a s s' :
  counts workers n s -> step t workers a s = Some s' ->
  (Z.of_nat (length (pool s)) <= Z.max 0 workers)%Z ->
  (Z.of_nat (length (pool s')) <= Z.max 0 workers)%Z.
Proof.
  intros (_ & _ & _ & _ & _ & _ & _ & Hmain) H Hle. unfold mainCounts in Hmain.
  step_inv H; cbn [pool setWorker withPool withMainPC withRunWg withNames withResults
                   withStdout withTorDialers withDevice withPanic];
    rewrite ?length_insert; try assumption.
  rewrite length_app. cbn [length].
  match goal with
  | E : (_ <? _)%Z = true |- _ => apply Z.ltb_lt in E
  end. lia.
Qed.

Lemma reachable_pool_size t workers file dev s :
  reachable t workers file dev s ->
  (Z.of_nat (length (pool s)) <= Z.max 0 workers)%Z.
Proof.
  intros Hreach.
  enough (counts workers (length (Split file)) s
          /\ (Z.of_nat (length (pool s)) <= Z.max 0 workers)%Z) by tauto.
  revert s Hreach. apply reachable_ind.
  - intros s0 Hs0. split.
    + apply (reachable_counts t workers file dev). exists s0, []. split; [exact Hs0 | reflexivity].
    + revert Hs0. rewrite boot_spec. intros H. injection H as <-. cbn. lia.
  - intros a s s' [Hc Hle] Hstep. split.
    + exact (counts_step _ _ _ _ _ _ Hc Hstep).
    + exact (pool_size_step _ _ _ _ _ _ Hc Hstep Hle).
Qed.

Lemma busy_single (l : list Worker) (w : nat) (old x : Worker) :
  length l <= 1 -> l !! w = Some old ->
  flat_map busyName l = busyName old /\ flat_map busyName (<[w:=x]> l) = busyName x.
Proof.
  intros Hlen Hw. destruct l as [|y [|z l]]; [discriminate Hw | | cbn in Hlen; lia].
  destruct w as [|w]; [| discriminate Hw]. injection Hw as ->.
  cbn. rewrite !app_nil_r. split; reflexivity.
Qed.

Lemma namesInOrder_step t workers a s s' :
  stateOK t s -> length (pool s') <= 1 -> step t workers a s = Some s' ->
  namesInOrder s' = namesInOrder s.
Proof.
  intros (Hok & _ & _) Hlen H. unfold namesInOrder, collected.
  step_inv H; cbn [panicked pool results names mainPC runWg setWorker withPool withMainPC
                   withRunWg withNames withResults withStdout withTorDialers withDevice
                   withPanic] in *; try reflexivity.
  all: rewrite ?length_insert in Hlen.
  all: repeat match goal with
         | E : recv _ = Received _ _ |- _ => apply recv_Received in E; destruct E as (? & ? & ?)
         | E : send _ _ = Some _ |- _ => apply send_Some in E; destruct E as (? & ? & ? & ?)
         | E : pool ?s !! ?w = Some ?old |- context [<[?w:=?x]> (pool ?s)] =>
             pose proof (proj1 (Forall_lookup _ _) Hok _ _ E);
             destruct (busy_single _ _ _ x Hlen E) as [-> ->]
         end.
  all: repeat match goal with
         | E : mainPC _ = _ |- _ => rewrite E
         | E : buf _ = _ |- _ => rewrite E
         end.
  all: rewrite ?flat_map_app, ?map_app; cbn [map flat_map busyName app workerOK fName withPC
                                              withTor withWg withPlain withR] in *;
       rewrite <- ?app_assoc, ?app_nil_r; cbn [app]; try reflexivity.
  match goal with
  | Hf : frameOK _ _ |- _ => destruct Hf as (Hn & _); rewrite Hn
  end.
  reflexivity.
Qed.

(** X8: one worker keeps the input order.  In a run with at most one
    worker the collected results, the results on the channel, the name
    in process and the queued names are, in this order and by name, the
    pieces of the names file; so the results are collected in the order
    of the file. *)
Theorem one_worker_keeps_the_order t workers file dev s :
  (workers <= 1)%Z ->
  reachable t workers file dev s ->
  namesInOrder s = Split file
  /\ exists rest, Split file = map Name (collected s) ++ rest.
Proof.
  intros Hw Hreach.
  enough (Hord : namesInOrder s = Split file).
  { split; [exact Hord |]. rewrite <- Hord. unfold namesInOrder. eexists. reflexivity. }
  enough (stateOK t s /\ namesInOrder s = Split file) by tauto.
  assert (Hsize : forall s, reachable t workers file dev s -> length (pool s) <= 1).
  { intros s1 H1. pose proof (reachable_pool_size _ _ _ _ _ H1). lia. }
  enough (reachable t workers file dev s /\ stateOK t s /\ namesInOrder s = Split file)
    by tauto.
  revert s Hreach. apply reachable_ind.
  - intros s0 Hs0.
    assert (R0 : reachable t workers file dev s0)
      by (exists s0, []; split; [exact Hs0 | reflexivity]).
    split; [exact R0 |]. split; [exact (reachable_stateOK _ _ _ _ _ R0) |].
    revert Hs0. rewrite boot_spec. intros H. injection H as <-. reflexivity.
  - intros a s1 s2 (R1 & Hok & Hord) Hstep.
    assert (R2 : reachable t workers file dev s2) by exact (reachable_step _ _ _ _ _ _ _ R1 Hstep).
    split; [exact R2 |]. split; [exact (stateOK_step _ _ _ _ _ Hok Hstep) |].
    rewrite (namesInOrder_step _ _ _ _ _ Hok (Hsize _ R2) Hstep). exact Hord.
Qed.

Lemma one_worker_keeps_the_order_witness :
  exists s0 s,
    boot sampleFile devTwoBlocks = Some s0
    /\ exec (blockTester "8.8.8.8:53") 1 scheduleFirstName s0 = Some s
    /\ namesInOrder s = ["example.com"; "example.org"; ""]
    /\ map Name (buf (results s)) = ["example.com"].
Proof.
  eexists _, _. split; [reflexivity |]. split; [vm_compute; reflexivity |].
  split; [| reflexivity].
  refine (proj1 (one_worker_keeps_the_order (blockTester "8.8.8.8:53") 1 sampleFile
                   devTwoBlocks _ _ _)).
  - lia.
  - eexists _, scheduleFirstName. split; [reflexivity | vm_compute; reflexivity].
Defined.

(** ** The dispatcher, seen from [main] and from the workers *)

Lemma alive_zero_returned (x : Worker) : alive x = 0 -> x = WReturned.
Proof. destruct x; [discriminate | discriminate | reflexivity]. Qed.

(** X9: [main] starts to collect only after [run] is over.  When
    [main] is in the loop over the results channel, every worker has
    returned and the wait group of [run] is at zero; with at least one
    worker the names channel is empty and the results collected so far
    together with those on the channel are as many as the names. *)
Theorem collection_starts_after_the_workers t workers file dev s acc :
  reachable t workers file dev s ->
  mainPC s = MCollect acc ->
  Forall (fun w => w = WReturned) (pool s)
  /\ runWg s = 0
  /\ ((1 <= workers)%Z ->
      buf (names s) = []
      /\ length acc + length (buf (results s)) = length (Split file)).
Proof.
  intros Hreach Hpc.
  destruct (reachable_counts _ _ _ _ _ Hreach)
    as (Hnc & Hcap & Hrc & Hsum & Hwg & Hfr & Hret & Hmain).
  unfold mainCounts in Hmain. unfold collected in Hsum. rewrite Hpc in Hmain, Hsum.
  destruct Hmain as [Hlen Halive].
  assert (Hall : forall w x, pool s !! w = Some x -> x = WReturned).
  { intros w x Hx. apply alive_zero_returned. exact (sumOver_zero alive _ _ _ Halive Hx). }
  split; [apply Forall_lookup; exact Hall |]. split; [congruence |].
  intros Hw.
  assert (Hnames : buf (names s) = []).
  { apply Hret. destruct (pool s) as [|x l] eqn:Epool; [cbn in Hlen; lia |].
    rewrite (Hall 0 x eq_refl). left. reflexivity. }
  split; [exact Hnames |].
  assert (Hproc : sumOver inProcess (pool s) = 0).
  { apply sumOver_all_zero. intros w x Hx. rewrite (Hall w x Hx). reflexivity. }
  rewrite Hnames, Hproc in Hsum. cbn [length] in Hsum. lia.
Qed.

Lemma collection_starts_after_the_workers_witness :
  exists s0 s,
    boot "example.com" dev16 = Some s0
    /\ exec (blockTester "8.8.8.8:53") 1 scheduleOneName s0 = Some s
    /\ Forall (fun w => w = WReturned) (pool s) /\ runWg s = 0.
Proof.
  eexists _, _. split; [reflexivity |]. split; [vm_compute; reflexivity |].
  assert (T : forall s acc,
             reachable (blockTester "8.8.8.8:53") 1 "example.com" dev16 s ->
             mainPC s = MCollect acc ->
             Forall (fun w => w = WReturned) (pool s) /\ runWg s = 0).
  { intros s acc R E.
    destruct (collection_starts_after_the_workers _ _ _ _ _ _ R E) as (H1 & H2 & _).
    split; assumption. }
  eapply T.
  - eexists _, scheduleOneName. split; [reflexivity | vm_compute; reflexivity].
  - reflexivity.
Defined.

(** X10: a worker never blocks on a channel.  In a run that has not
    panicked, a worker at the head of its loop can always move (the
    names channel was closed before [run], so it delivers a name or is
    found drained), and a worker that is about to send its result can
    always send it: the results channel has room for every name. *)
Theorem workers_never_block_on_channels t workers file dev s w :
  reachable t workers file dev s ->
  panicked s = None ->
  (pool s !! w = Some WRange -> exists s', step t workers (AWorker w) s = Some s')
  /\ (forall f,
        pool s !! w = Some (WProcess f) -> fPC f = PSend ->
        exists s', step t workers (AWorker w) s = Some s'
                   /\ buf (results s') = buf (results s) ++ [fR f]
                   /\ pool s' !! w = Some WRange).
Proof.
  intros Hreach Hpanic.
  destruct (reachable_counts _ _ _ _ _ Hreach)
    as (Hnc & Hcap & Hrc & Hsum & Hwg & Hfr & Hret & Hmain).
  split.
  - intros Hw. unfold step, stepWorker. rewrite Hpanic, Hw.
    destruct (recv (names s)) eqn:E; [eauto | |].
    + destruct (wgDone (runWg s)); eauto.
    + apply recv_Blocked in E. destruct E as [_ E]. congruence.
  - intros f Hw Hpc. unfold step, stepWorker. rewrite Hpanic, Hw, Hpc.
    pose proof (sumOver_lookup_le inProcess _ _ _ Hw) as Hle. cbn [inProcess] in Hle.
    unfold send. rewrite Hrc.
    replace (Nat.ltb (length (buf (results s))) (cap (results s))) with true
      by (symmetry; apply Nat.ltb_lt; lia).
    eexists. split; [reflexivity |]. split; [reflexivity |].
    cbn [pool setWorker withPool withResults].
    apply list_lookup_insert_eq. exact (lookup_lt_Some _ _ _ Hw).
Qed.

Lemma workers_never_block_on_channels_witness :
  exists s0 s,
    boot sampleFile devTwoBlocks = Some s0
    /\ exec (blockTester "8.8.8.8:53") 1 (take 10 scheduleFirstName) s0 = Some s
    /\ exists s', step (blockTester "8.8.8.8:53") 1 (AWorker 0) s = Some s'
                  /\ pool s' !! 0 = Some WRange.
Proof.
  eexists _, _. split; [reflexivity |]. split; [vm_compute; reflexivity |].
  assert (T : forall s f,
             reachable (blockTester "8.8.8.8:53") 1 sampleFile devTwoBlocks s ->
             panicked s = None -> pool s !! 0 = Some (WProcess f) -> fPC f = PSend ->
             exists s', step (blockTester "8.8.8.8:53") 1 (AWorker 0) s = Some s'
                        /\ pool s' !! 0 = Some WRange).
  { intros s f R Hp Hw Hpc.
    destruct (workers_never_block_on_channels _ _ _ _ _ 0 R Hp) as [_ H].
    destruct (H f Hw Hpc) as (s' & H1 & _ & H3). exists s'. split; assumption. }
  eapply T.
  - eexists _, (take 10 scheduleFirstName). split; [reflexivity | vm_compute; reflexivity].
  - reflexivity.
  - reflexivity.
  - reflexivity.
Defined.

(** X11: without workers nothing is probed.  When the worker count is
    zero or negative, no worker is ever started: in every state of the
    run all names are still on the names channel, nothing has been
    printed, sent or collected, no dialer has been built, and [main]
    ends blocked in the collection loop. *)
Theorem no_workers_no_probes t workers file dev s :
  (workers <= 0)%Z ->
  reachable t workers file dev s ->
  pool s = [] /\ buf (names s) = Split file /\ buf (results s) = []
  /\ collected s = [] /\ stdout s = [] /\ torDialers s = [] /\ device s = dev
  /\ panicked s = None
  /\ (stuck t workers s -> mainPC s = MCollect []).
Proof.
  intros Hw Hreach.
  enough (H : (pool s = [] /\ buf (names s) = Split file /\ buf (results s) = []
               /\ collected s = [] /\ stdout s = [] /\ torDialers s = [] /\ device s = dev
               /\ panicked s = None /\ runWg s = 0 /\ closed (results s) = false)
              /\ match mainPC s with
                 | MSpawn i => (0 <= i)%Z
                 | MWait | MCollect _ => True
                 | MEncode _ => False
                 end).
  { destruct H as [(H1 & H2 & H3 & H4 & H5 & H6 & H7 & H8 & H9 & H10) Hm].
    split_and!; try assumption.
    intros Hstuck. pose proof (Hstuck AMain) as Hs. unfold step, stepMain in Hs.
    rewrite H8 in Hs. unfold collected in H4. destruct (mainPC s) as [i| |acc|acc].
    - destruct (i <? workers)%Z; discriminate Hs.
    - rewrite H9 in Hs. discriminate Hs.
    - subst acc. reflexivity.
    - destruct Hm. }
  revert s Hreach. apply reachable_ind.
  - intros s0. rewrite boot_spec. intros H. injection H as <-. cbn.
    split_and!; first [reflexivity | lia].
  - intros a s s' [(H1 & H2 & H3 & H4 & H5 & H6 & H7 & H8 & H9 & H10) Hm] H.
    unfold collected in *.
    step_inv H; cbn [panicked pool results names mainPC runWg stdout torDialers device
                     setWorker withPool withMainPC withRunWg withNames withResults
                     withStdout withTorDialers withDevice withPanic] in *;
      try (rewrite H1 in *; discriminate).
    all: repeat match goal with
           | E : recv _ = Received _ _ |- _ => apply recv_Received in E; destruct E as (? & ? & ?)
           | E : recv _ = Drained |- _ => apply recv_Drained in E; destruct E as (? & ?)
           | E : (_ <? _)%Z = true |- _ => apply Z.ltb_lt in E
           end; try congruence; try lia.
    all: split_and!; try assumption; try reflexivity; try exact I.
Qed.

Lemma no_workers_no_probes_witness :
  exists s0 s,
    boot sampleFile dev16 = Some s0
    /\ exec (blockTester "8.8.8.8:53") 0 [AMain; AMain] s0 = Some s
    /\ pool s = [] /\ buf (names s) = Split sampleFile /\ mainPC s = MCollect [].
Proof.
  eexists _, _. split; [reflexivity |]. split; [vm_compute; reflexivity |].
  assert (T : forall s,
             reachable (blockTester "8.8.8.8:53") 0 sampleFile dev16 s ->
             pool s = [] /\ buf (names s) = Split sampleFile).
  { intros s R.
    destruct (no_workers_no_probes _ 0%Z _ _ _ ltac:(lia) R) as (H1 & H2 & _).
    split; assumption. }
  split; [| split; [| reflexivity]]; eapply T;
    eexists _, [AMain; AMain]; (split; [reflexivity | vm_compute; reflexivity]).
Defined.

(** ** What a sent result holds, and what is printed *)

Lemma torPresent_step t workers a s s' :
  Forall torPresent (pool s) /\ Forall (fun r => Tor r <> None) (buf (results s))
  /\ Forall (fun r => Tor r <> None) (collected s) ->
  step t workers a s = Some s' ->
  Forall torPresent (pool s') /\ Forall (fun r => Tor r <> None) (buf (results s'))
  /\ Forall (fun r => Tor r <> None) (collected s').
Proof.
  intros (Hp & Hr & Hc) H.
  step_inv H; unfold collected in *;
    cbn [pool results mainPC setWorker withPool withMainPC withRunWg withNames
         withResults withStdout withTorDialers withDevice withPanic] in *.
  all: repeat match goal with
         | E : recv _ = Received _ _ |- _ => apply recv_Received in E; destruct E as (? & ? & ?)
         | E : send _ _ = Some _ |- _ => apply send_Some in E; destruct E as (? & ? & ? & ?)
         | E : pool _ !! _ = Some (WProcess _) |- _ =>
             apply (proj1 (Forall_lookup _ _) Hp) in E
         end.
  all: repeat match goal with
         | E : mainPC _ = _ |- _ => rewrite E in *
         | E : buf _ = _ |- _ => rewrite E in *
         end.
  all: split_and!; try assumption; try (apply Forall_insert; [assumption |]).
  all: try (apply Forall_app; split; [assumption |]).
  all: try (apply Forall_nil; exact I).
  all: try (inversion Hr; subst; assumption).
  all: try (apply Forall_singleton; inversion Hr; subst; assumption).
  all: cbn [torPresent fPC fR withPC withTor withWg withPlain withR Tor] in *.
  all: try exact I.
  all: try (repeat constructor; fail).
  all: try (intros; congruence).
  all: try (apply Forall_singleton; auto).
Qed.

(** X12: a result that has been sent always has its tor outcome.  The
    worker reads [r.Tor.Error] for the status line before it sends, so
    a result whose tor outcome is still missing never reaches the
    results channel (the run has panicked instead); only the plain
    outcome can be missing from a sent result. *)
Theorem sent_results_have_a_tor_outcome t workers file dev s r :
  reachable t workers file dev s -> emitted s r -> Tor r <> None.
Proof.
  intros Hreach Hem.
  enough (H : Forall torPresent (pool s)
              /\ Forall (fun r => Tor r <> None) (buf (results s))
              /\ Forall (fun r => Tor r <> None) (collected s)).
  { destruct H as (_ & Hr & Hc). destruct Hem as [Hin|Hin].
    - rewrite Forall_forall in Hr. apply Hr, list_elem_of_In, Hin.
    - rewrite Forall_forall in Hc. apply Hc, list_elem_of_In, Hin. }
  clear Hem. revert s Hreach. apply reachable_ind.
  - intros s0. rewrite boot_spec. intros H. injection H as <-.
    repeat split; constructor.
  - intros a s s' Hs Hstep. exact (torPresent_step _ _ _ _ _ Hs Hstep).
Qed.

Lemma sent_results_have_a_tor_outcome_witness :
  exists s0 s r,
    boot "example.com" dev16 = Some s0
    /\ exec (blockTester "8.8.8.8:53") 1 scheduleNilPlain s0 = Some s
    /\ buf (results s) = [r] /\ Plain r = None /\ Tor r <> None.
Proof.
  eexists _, _, _. split; [reflexivity |]. split; [vm_compute; reflexivity |].
  split; [reflexivity |]. split; [reflexivity |].
  eapply (sent_results_have_a_tor_outcome (blockTester "8.8.8.8:53") 1 "example.com" dev16).
  - eexists _, scheduleNilPlain. split; [reflexivity | vm_compute; reflexivity].
  - left. left. reflexivity.
Defined.

Lemma statusLines_step t workers a s s' :
  Forall statusLine (stdout s)
  /\ length (stdout s)
     = length (collected s) + length (buf (results s)) + sumOver atSend (pool s) ->
  step t workers a s = Some s' ->
  Forall statusLine (stdout s')
  /\ length (stdout s')
     = length (collected s') + length (buf (results s')) + sumOver atSend (pool s').
Proof.
  intros (Hl & Hn) H.
  step_inv H; unfold collected in *;
    cbn [pool results mainPC stdout setWorker withPool withMainPC withRunWg withNames
         withResults withStdout withTorDialers withDevice withPanic] in *.
  all: repeat match goal with
         | E : recv _ = Received _ _ |- _ => apply recv_Received in E; destruct E as (? & ? & ?)
         | E : send _ _ = Some _ |- _ => apply send_Some in E; destruct E as (? & ? & ? & ?)
         | E : pool ?s !! ?w = Some ?old |- context [<[?w:=?x]> (pool ?s)] =>
             pose proof (sumOver_insert atSend _ _ _ x E); clear E
         end.
  all: repeat match goal with
         | E : mainPC _ = _ |- _ => rewrite E in *
         | E : buf _ = _ |- _ => rewrite E in *
         end.
  all: rewrite ?sumOver_app, ?length_app in *;
       cbn [sumOver foldr atSend length fPC withPC withTor withWg withPlain withR] in *.
  all: repeat match goal with
         | E : fPC _ = _ |- _ => rewrite E in *
         end.
  all: split; try assumption; try lia.
  all: apply Forall_app; split; [assumption |]; apply Forall_singleton.
  - left. reflexivity.
  - right. eexists. split; [| reflexivity].
    intros E. rewrite E in *. discriminate.
Qed.

(** X13: one status line per result.  Every line the run has printed
    is [:)] or [:( ] followed by a non-empty error text, and there are
    as many lines as results sent or about to be sent: each result is
    announced exactly once, before it is sent. *)
Theorem one_status_line_per_result t workers file dev s :
  reachable t workers file dev s ->
  Forall statusLine (stdout s)
  /\ length (stdout s)
     = length (collected s) + length (buf (results s)) + sumOver atSend (pool s).
Proof.
  revert s. apply reachable_ind.
  - intros s0. rewrite boot_spec. intros H. injection H as <-.
    split; [constructor | reflexivity].
  - intros a s s' Hs Hstep. exact (statusLines_step _ _ _ _ _ Hs Hstep).
Qed.

Lemma one_status_line_per_result_witness :
  exists s0 s,
    boot sampleFile devTwoBlocks = Some s0
    /\ exec (blockTester "8.8.8.8:53") 1 scheduleFirstName s0 = Some s
    /\ stdout s = [":( connection refused"]
    /\ Forall statusLine (stdout s)
    /\ length (buf (results s)) = 1.
Proof.
  eexists _, _. split; [reflexivity |]. split; [vm_compute; reflexivity |].
  split; [reflexivity |]. split; [| reflexivity].
  refine (proj1 (one_status_line_per_result (blockTester "8.8.8.8:53") 1 sampleFile
                   devTwoBlocks _ _)).
  eexists _, scheduleFirstName. split; [reflexivity | vm_compute; reflexivity].
Defined.

(** ** The clients of a tor probe *)

Lemma torClients_step t workers a s s' :
  Forall (torClientsOf t) (pool s) -> step t workers a s = Some s' ->
  Forall (torClientsOf t) (pool s').
Proof.
  intros Hp H.
  step_inv H; cbn [pool setWorker withPool withMainPC withRunWg withNames
                   withResults withStdout withTorDialers withDevice withPanic] in *;
    try assumption.
  all: repeat match goal with
         | E : newDialer _ = Ok _ |- _ => apply newDialer_Ok in E; destruct E as (? & -> & ->)
         | E : pool _ !! _ = Some (WProcess _) |- _ =>
             apply (proj1 (Forall_lookup _ _) Hp) in E
         end.
  all: try (apply Forall_app; split; [assumption | repeat constructor]).
  all: apply Forall_insert; [assumption |].
  all: unfold torClientsOf, torClients in *;
       cbn [fTor withPC withTor withWg withPlain withR] in *; try exact I.
  all: repeat match goal with
         | E : tor _ = _ |- _ => rewrite E in *
         | E : fTor _ = _ |- _ => rewrite E in *
         end; try assumption; try (split; reflexivity).
  eexists. split; reflexivity.
Qed.

(** X14: a tor probe resolves and fetches through one and the same
    proxy dialer.  In block-tester.go the resolver and the HTTP client
    of every started tor probe are built over the dialer [newDialer]
    has just returned; in the earlier variant they are the pair of the
    [tester], built over the dialer of [main].  In both programs the
    DNS exchange and the HTTP request of a tor probe dial through the
    same SOCKS5 dialer and never directly. *)
Theorem tor_probe_uses_one_dialer t workers file dev s w f c d g :
  reachable t workers file dev s ->
  pool s !! w = Some (WProcess f) ->
  fTor f = Some (c, d, g) ->
  torClients t c d
  /\ (forall dnsAddr u,
        t = blockTester dnsAddr \/ earlierTester u dnsAddr = inr t ->
        exists p, Transport c = Some p /\ DnsDialer d = Some p /\ Net d = "tcp").
Proof.
  intros Hreach Hw Hf.
  assert (Hc : torClients t c d).
  { assert (Hall : Forall (torClientsOf t) (pool s)).
    { revert Hreach. clear. revert s. apply reachable_ind.
      - intros s0. rewrite boot_spec. intros H. injection H as <-. constructor.
      - intros a s s' Hs Hstep. exact (torClients_step _ _ _ _ _ Hs Hstep). }
    pose proof (proj1 (Forall_lookup _ _) Hall _ _ Hw) as H.
    cbn [torClientsOf] in H. rewrite Hf in H. exact H. }
  split; [exact Hc |].
  intros dnsAddr u [->|Hu]; unfold torClients in Hc.
  - cbn [tor blockTester] in Hc. destruct Hc as (b & -> & ->). eexists. repeat split.
  - unfold earlierTester in Hu. destruct (FromURL u 0) as [err|p]; [discriminate Hu |].
    injection Hu as <-. cbn [tor] in Hc. destruct Hc as [-> ->]. exists p. repeat split.
Qed.

Lemma tor_probe_uses_one_dialer_witness :
  exists s0 s f c d g t,
    earlierTester defaultProxyURI "8.8.8.8:53" = inr t
    /\ boot fileAB [] = Some s0
    /\ exec t 5 scheduleTwoProbesOfFive s0 = Some s
    /\ pool s !! 1 = Some (WProcess f) /\ fTor f = Some (c, d, g)
    /\ exists p, Transport c = Some p /\ DnsDialer d = Some p /\ Net d = "tcp".
Proof.
  eexists _, _, _, _, _, _, _. split; [reflexivity |]. split; [reflexivity |].
  split; [vm_compute; reflexivity |]. split; [reflexivity |]. split; [reflexivity |].
  refine (proj2 (tor_probe_uses_one_dialer _ 5 fileAB [] _ 1 _ _ _ _ _ _ _)
            "8.8.8.8:53" defaultProxyURI (or_intror eq_refl)).
  - eexists _, scheduleTwoProbesOfFive. split; [reflexivity | vm_compute; reflexivity].
  - reflexivity.
  - reflexivity.
Defined.

(** ** Random bytes and panics *)

Lemma started_step t workers a s s' :
  step t workers a s = Some s' ->
  length (torDialers s') + sumOver atSetup (pool s') + length (buf (names s'))
  = length (torDialers s) + sumOver atSetup (pool s) + length (buf (names s)).
Proof.
  intros H.
  step_inv H; cbn [pool names torDialers setWorker withPool withMainPC withRunWg withNames
                   withResults withStdout withTorDialers withDevice withPanic];
    try reflexivity.
  all: repeat match goal with
         | E : recv _ = Received _ _ |- _ => apply recv_Received in E; destruct E as (? & ? & ?)
         | E : pool ?s !! ?w = Some ?old |- context [<[?w:=?x]> (pool ?s)] =>
             pose proof (sumOver_insert atSetup _ _ _ x E); clear E
         end.
  all: repeat match goal with
         | E : buf _ = _ |- _ => rewrite E in *
         end.
  all: rewrite ?sumOver_app, ?length_app in *;
       cbn [sumOver foldr atSetup length fPC withPC withTor withWg withPlain withR] in *.
  all: repeat match goal with
         | E : fPC _ = _ |- _ => rewrite E in *
         end.
  all: lia.
Qed.

Lemma reachable_started t workers file dev s :
  reachable t workers file dev s ->
  length (torDialers s) + sumOver atSetup (pool s) + length (buf (names s))
  = length (Split file).
Proof.
  revert s. apply reachable_ind.
  - intros s0. rewrite boot_spec. intros H. injection H as <-. cbn. lia.
  - intros a s s' Hs Hstep. rewrite (started_step _ _ _ _ _ Hstep). exact Hs.
Qed.

Lemma reachable_freshLog_PerName t workers file dev s :
  tor t = PerName -> reachable t workers file dev s -> freshLog dev s.
Proof.
  intros Ht. revert s. apply reachable_ind.
  - intros s0. rewrite boot_spec. intros H. injection H as <-.
    unfold freshLog. cbn. split_and!; [reflexivity | lia |].
    intros i n d Hi. destruct i; discriminate Hi.
  - intros a s s' Hs Hstep. exact (freshLog_step t _ _ _ _ _ Ht Hs Hstep).
Qed.

(** X15: sixteen random bytes per name.  In a run of block-tester.go
    the random device has delivered exactly 16 bytes for every name
    whose tor probe has been set up, in the order of the set-ups, and
    nothing else; a run on N names reads at most 16 N bytes. *)
Theorem sixteen_random_bytes_per_name dnsAddr workers file dev s :
  reachable (blockTester dnsAddr) workers file dev s ->
  device s = drop (16 * length (torDialers s)) dev
  /\ length dev = length (device s) + 16 * length (torDialers s)
  /\ length (torDialers s) <= length (Split file).
Proof.
  intros Hreach.
  destruct (reachable_freshLog _ _ _ _ _ Hreach) as (Hdev & Hlen & _).
  pose proof (reachable_started _ _ _ _ _ Hreach) as Hn.
  split; [exact Hdev |]. split; [| lia].
  rewrite Hdev, length_drop. lia.
Qed.

Lemma sixteen_random_bytes_per_name_witness :
  exists s0 s,
    boot fileAB devTwoBlocks = Some s0
    /\ exec (blockTester "8.8.8.8:53") 2 (take 4 scheduleTwoProbes) s0 = Some s
    /\ length (torDialers s) = 1
    /\ device s = drop (16 * length (torDialers s)) devTwoBlocks.
Proof.
  eexists _, _. split; [reflexivity |]. split; [vm_compute; reflexivity |].
  split; [reflexivity |].
  refine (proj1 (sixteen_random_bytes_per_name "8.8.8.8:53" 2 fileAB devTwoBlocks _ _)).
  eexists _, (take 4 scheduleTwoProbes). split; [reflexivity | vm_compute; reflexivity].
Defined.

Lemma newDialer_Panic dev m :
  newDialer dev = Panic m -> m = "unexpected EOF" /\ length dev < 16.
Proof.
  unfold newDialer, newDialerWith, randomString, randRead.
  destruct (Nat.leb 16 (length dev)) eqn:E; [discriminate |].
  intros H. injection H as <-. apply Nat.leb_gt in E. split; [reflexivity | exact E].
Qed.

Lemma panic_step t workers n dev a s s' m :
  counts workers n s ->
  (tor t = PerName -> freshLog dev s) ->
  length (torDialers s) + sumOver atSetup (pool s) + length (buf (names s)) = n ->
  step t workers a s = Some s' ->
  panicked s' = Some m ->
  m = nilDeref
  \/ (tor t = PerName /\ m = "unexpected EOF" /\ length dev < 16 * n).
Proof.
  intros (Hnc & Hcap & Hrc & Hsum & Hwg & Hfr & Hret & Hmain) Hfresh Hstarted H Hm.
  step_inv H; cbn [panicked setWorker withPool withMainPC withRunWg withNames
                   withResults withStdout withTorDialers withDevice withPanic] in Hm;
    try congruence.
  all: injection Hm as <-.
  - exfalso. pose proof (sumOver_lookup_le alive _ _ _ Heqo) as Hle.
    cbn [alive] in Hle. unfold wgDone in Heqo0. destruct (runWg s); [lia | discriminate].
  - right. apply newDialer_Panic in Heqo0. destruct Heqo0 as [-> Hshort].
    destruct (Hfresh eq_refl) as (Hdev & Hlen & _).
    pose proof (sumOver_lookup_le atSetup _ _ _ Heqo) as Hle.
    cbn [atSetup] in Hle. rewrite Heqp in Hle.
    rewrite Hdev, length_drop in Hshort.
    split; [reflexivity |]. split; [reflexivity |]. lia.
  - left. reflexivity.
  - exfalso. pose proof (proj1 (Forall_lookup _ _) Hfr _ _ Heqo) as [Hp _].
    unfold pending in Hp. rewrite Heqg in Hp. cbn [running] in Hp.
    unfold wgDone in Heqo0. destruct (fWg f); [lia | discriminate].
  - exfalso. pose proof (proj1 (Forall_lookup _ _) Hfr _ _ Heqo) as [Hp _].
    unfold pending in Hp. rewrite Heqo0 in Hp. cbn [running] in Hp.
    unfold wgDone in Heqo1. destruct (fWg f); [lia | discriminate].
Qed.

(** X16: the panics a run can end in.  No wait group counter ever goes
    negative.  A run panics only at the status line, on a tor outcome
    that has not been stored yet, or, in block-tester.go, in
    [newDialer] when the random device fails, which needs a device with
    fewer than 16 bytes per name; the earlier variant has the first
    panic only. *)
Theorem panics_of_a_run t workers file dev s m :
  reachable t workers file dev s ->
  panicked s = Some m ->
  m <> negativeCounter
  /\ (m = nilDeref
      \/ (tor t = PerName /\ m = "unexpected EOF"
          /\ length dev < 16 * length (Split file))).
Proof.
  intros Hreach Hm.
  enough (H : m = nilDeref
              \/ (tor t = PerName /\ m = "unexpected EOF"
                  /\ length dev < 16 * length (Split file))).
  { split; [| exact H]. destruct H as [->|(_ & -> & _)]; discriminate. }
  revert m Hm.
  enough (H : reachable t workers file dev s
              /\ forall m, panicked s = Some m ->
                   m = nilDeref
                   \/ (tor t = PerName /\ m = "unexpected EOF"
                       /\ length dev < 16 * length (Split file))) by tauto.
  revert s Hreach. apply reachable_ind.
  - intros s0 Hs0. split; [exists s0, []; split; [exact Hs0 | reflexivity] |].
    revert Hs0. rewrite boot_spec. intros H. injection H as <-. intros m Hm. discriminate Hm.
  - intros a s s' [R _] Hstep. split; [exact (reachable_step _ _ _ _ _ _ _ R Hstep) |].
    intros m Hm.
    exact (panic_step t workers _ dev a s s' m
             (reachable_counts _ _ _ _ _ R)
             (fun Ht => reachable_freshLog_PerName _ _ _ _ _ Ht R)
             (reachable_started _ _ _ _ _ R) Hstep Hm).
Qed.

Lemma panics_of_a_run_witness :
  exists s0 s m,
    boot "example.com" dev16 = Some s0
    /\ exec (blockTester "8.8.8.8:53") 1 scheduleNilTor s0 = Some s
    /\ panicked s = Some m /\ m <> negativeCounter /\ m = nilDeref.
Proof.
  eexists _, _, _. split; [reflexivity |]. split; [vm_compute; reflexivity |].
  split; [reflexivity |]. split; [| reflexivity].
  refine (proj1 (panics_of_a_run (blockTester "8.8.8.8:53") 1 "example.com" dev16 _ _ _ _)).
  - eexists _, scheduleNilTor. split; [reflexivity | vm_compute; reflexivity].
  - reflexivity.
Defined.

(** ** Every run comes to rest *)

Lemma runs_are_bounded_witness :
  exists s0 s,
    boot "example.com" dev16 = Some s0
    /\ exec (blockTester "8.8.8.8:53") 1 scheduleOneName s0 = Some s
    /\ length scheduleOneName <= 2 * Z.to_nat 1 + 10 * length (Split "example.com") + 4.
Proof.
  eexists _, _. split; [reflexivity |]. split; [vm_compute; reflexivity |].
  eapply (runs_are_bounded (blockTester "8.8.8.8:53") 1 "example.com" dev16).
  - reflexivity.
  - vm_compute. reflexivity.
Defined.

Lemma run_at_rest_has_collected_every_result_witness :
  exists s0 s acc,
    boot "example.com" dev16 = Some s0
    /\ exec (blockTester "8.8.8.8:53") 1 scheduleOneName s0 = Some s
    /\ mainPC s = MCollect acc /\ length acc = length (Split "example.com").
Proof.
  destruct one_name_run_deadlocks as (s0 & s & r & Hs0 & Hs & _ & _ & _ & Hp & Hstuck).
  destruct (run_at_rest_has_collected_every_result (blockTester "8.8.8.8:53") 1
              "example.com" dev16 s)
    as (acc & H1 & H2 & _).
  - lia.
  - exists s0, scheduleOneName. split; assumption.
  - exact Hp.
  - exact Hstuck.
  - exists s0, s, acc. split; [exact Hs0 |]. split; [exact Hs |]. split; assumption.
Defined.

(** ** What the join of [process] does give *)

Lemma joined_step t workers a s s' :
  Forall joined (pool s) -> step t workers a s = Some s' -> Forall joined (pool s').
Proof.
  intros Hp H.
  step_inv H; cbn [pool setWorker withPool withMainPC withRunWg withNames
                   withResults withStdout withTorDialers withDevice withPanic] in *;
    try assumption.
  all: repeat match goal with
         | E : pool _ !! _ = Some (WProcess _) |- _ =>
             apply (proj1 (Forall_lookup _ _) Hp) in E
         | E : wgDone _ = Some _ |- _ => unfold wgDone in E
         end.
  all: try (apply Forall_app; split; [assumption | repeat constructor]).
  all: apply Forall_insert; [assumption |].
  all: cbn [joined fPC fWg withPC withTor withWg withPlain withR] in *; try exact I.
  all: repeat match goal with
         | E : fPC _ = _ |- _ => rewrite E in *
         end.
  all: try (intros [E|E]; discriminate E).
  all: try (intros _; assumption).
  all: try assumption.
  all: intros Hpc;
       match goal with
       | Hj : _ \/ _ -> fWg _ = 0 |- _ =>
           first [ apply Hj; left; reflexivity
                 | specialize (Hj Hpc);
                   match goal with
                   | E : match fWg _ with 0 => None | S _ => _ end = Some _ |- _ =>
                       rewrite Hj in E; discriminate E
                   end ]
       end.
Qed.

(** X17: past [wg.Wait()] both probes have returned.  When a worker is
    at the status line or at the send, the plain and the tor call of
    [processName] for its name have both returned (their outcomes
    exist), although a closure may not have stored its outcome yet; no
    probe of a name is still running when its result is sent. *)
Theorem past_the_wait_both_probes_have_returned t workers file dev s w f :
  reachable t workers file dev s ->
  pool s !! w = Some (WProcess f) ->
  fPC f = PReport \/ fPC f = PSend ->
  fWg f = 0
  /\ fPlain f <> GRunning
  /\ exists c d g, fTor f = Some (c, d, g) /\ g <> GRunning.
Proof.
  intros Hreach Hw Hpc.
  assert (Hj : Forall joined (pool s)).
  { revert Hreach. clear. revert s. apply reachable_ind.
    - intros s0. rewrite boot_spec. intros H. injection H as <-. constructor.
    - intros a s s' Hs Hstep. exact (joined_step _ _ _ _ _ Hs Hstep). }
  pose proof (proj1 (Forall_lookup _ _) Hj _ _ Hw Hpc) as Hwg.
  destruct (reachable_counts _ _ _ _ _ Hreach) as (_ & _ & _ & _ & _ & Hfr & _).
  pose proof (proj1 (Forall_lookup _ _) Hfr _ _ Hw) as [Hpend Hiff].
  unfold pending in Hpend. rewrite Hwg in Hpend.
  split; [exact Hwg |]. split.
  - intros E. rewrite E in Hpend. cbn in Hpend. lia.
  - destruct (fTor f) as [[[c d] g]|]; [| lia].
    exists c, d, g. split; [reflexivity |]. intros ->. cbn in Hpend. lia.
Qed.

Lemma past_the_wait_both_probes_have_returned_witness :
  exists s0 s f,
    boot "example.com" dev16 = Some s0
    /\ exec (blockTester "8.8.8.8:53") 1 (take 7 scheduleNilTor) s0 = Some s
    /\ pool s !! 0 = Some (WProcess f) /\ fPC f = PReport
    /\ Tor (fR f) = None
    /\ exists c d g, fTor f = Some (c, d, g) /\ g <> GRunning.
Proof.
  eexists _, _, _. split; [reflexivity |]. split; [vm_compute; reflexivity |].
  split; [reflexivity |]. split; [reflexivity |]. split; [reflexivity |].
  refine (proj2 (proj2 (past_the_wait_both_probes_have_returned
                          (blockTester "8.8.8.8:53") 1 "example.com" dev16 _ 0 _ _ _ _))).
  - eexists _, (take 7 scheduleNilTor). split; [reflexivity | vm_compute; reflexivity].
  - reflexivity.
  - left. reflexivity.
Defined.


